(** * Pomodoro timer (src/app.js): a shallow embedding and its properties

    The application is a single-threaded, event-driven JavaScript program
    that mutates one global object ([AppState]) and talks to the browser
    (localStorage, [setInterval]/[setTimeout], Web Audio, the clock).
    The embedding below threads one [World] record through every operation:
    its first group of fields is [AppState] as the source declares it, the
    second group is the part of the browser the program reads and writes.

    Conventions of the model:
    - JavaScript numbers that the program only ever uses as integers are [Z];
    - an instant is a number of milliseconds since the epoch ([Date.now()]);
    - the local time zone is a fixed offset [tzOffset] in minutes east of UTC
      (daylight-saving changes are not modelled);
    - a session's [date], the text [YYYY-MM-DD] in the source, is kept as the
      number of the day it denotes (days since 1970-01-01); [isoDate] prints
      it back.  Equality of such texts is equality of day numbers, and
      [new Date(text)] is midnight UTC of that day;
    - DOM updates that only repaint the page are left out. *)

From Stdlib Require Import ZArith List String Ascii Bool Lia QArith_base.
From Stdlib Require Import DecimalString.
Import ListNotations.
Open Scope Z_scope.

(* ================================================================= *)
(** ** The clock and the calendar ([Date]) *)

Module JsDate.

Definition MS_PER_MINUTE : Z := 60000.
Definition MS_PER_HOUR : Z := 3600000.
Definition MS_PER_DAY : Z := 86400000.

(** [d.toISOString().split('T')[0]]: the calendar day of instant [t] in UTC. *)
Definition toISODate (t : Z) : Z := t / MS_PER_DAY.

(** Wall-clock reading of instant [t] in the zone [tz] minutes east of UTC. *)
Definition localTime (tz t : Z) : Z := t + tz * MS_PER_MINUTE.

(** The calendar day of instant [t] on the local wall clock. *)
Definition localDate (tz t : Z) : Z := localTime tz t / MS_PER_DAY.

(** [d.getHours()]: local hour of day. *)
Definition getHours (tz t : Z) : Z := (localTime tz t / MS_PER_HOUR) mod 24.

(** [d.setHours(0, 0, 0, 0)]: local midnight of the local day of [t]. *)
Definition startOfDay (tz t : Z) : Z := t - (localTime tz t) mod MS_PER_DAY.

(** [d.setHours(23, 59, 59, 999)]: last millisecond of the local day. *)
Definition endOfDay (tz t : Z) : Z := startOfDay tz t + (MS_PER_DAY - 1).

(** [d.setDate(d.getDate() + n)]: same wall-clock time, [n] days later. *)
Definition addDays (t n : Z) : Z := t + n * MS_PER_DAY.

(** [new Date(text)] for a date-only text: midnight UTC of that day. *)
Definition parse (day : Z) : Z := day * MS_PER_DAY.

(** Gregorian year, month and day of month of a day number. *)
Definition civil (day : Z) : Z * Z * Z :=
  let z := day + 719468 in
  let era := z / 146097 in
  let doe := z - era * 146097 in
  let yoe := (doe - doe / 1460 + doe / 36524 - doe / 146096) / 365 in
  let doy := doe - (365 * yoe + yoe / 4 - yoe / 100) in
  let mp := (5 * doy + 2) / 153 in
  let d := doy - (153 * mp + 2) / 5 + 1 in
  let m := if mp <? 10 then mp + 3 else mp - 9 in
  let y := yoe + era * 400 in
  (if m <=? 2 then y + 1 else y, m, d).

Definition digit (n : Z) : string :=
  String (ascii_of_nat (48 + Z.to_nat (n mod 10))) EmptyString.

Definition pad2 (n : Z) : string := (digit (n / 10) ++ digit n)%string.

Definition pad4 (n : Z) : string := (pad2 (n / 100) ++ pad2 (n mod 100))%string.

(** The text the source stores, for years 0000 to 9999. *)
Definition isoDate (day : Z) : string :=
  let '(y, m, d) := civil day in
  (pad4 y ++ "-" ++ pad2 m ++ "-" ++ pad2 d)%string.

Definition weekdayNames : list string :=
  ["Sun"; "Mon"; "Tue"; "Wed"; "Thu"; "Fri"; "Sat"]%string.

Definition monthNames : list string :=
  ["Jan"; "Feb"; "Mar"; "Apr"; "May"; "Jun";
   "Jul"; "Aug"; "Sep"; "Oct"; "Nov"; "Dec"]%string.

Definition numeric (n : Z) : string :=
  if n <? 10 then digit n else pad2 n.

(** [d.toLocaleDateString('en-US', { weekday: 'short' })]. *)
Definition weekdayShort (tz t : Z) : string :=
  nth (Z.to_nat ((localDate tz t + 4) mod 7)) weekdayNames ""%string.

(** [d.toLocaleDateString('en-US', { month: 'short', day: 'numeric' })]. *)
Definition monthDay (tz t : Z) : string :=
  let '(_, m, d) := civil (localDate tz t) in
  (nth (Z.to_nat (m - 1)) monthNames "" ++ " " ++ numeric d)%string.

End JsDate.

(* ================================================================= *)
(** ** Data *)

Inductive Mode : Type := pomodoro | shortBreak | longBreak.

Definition Mode_eqb (a b : Mode) : bool :=
  match a, b with
  | pomodoro, pomodoro | shortBreak, shortBreak | longBreak, longBreak => true
  | _, _ => false
  end.

Record Settings : Type := mkSettings {
  pomodoroMinutes : Z;
  shortBreakMinutes : Z;
  longBreakMinutes : Z;
  longBreakInterval : Z;
  soundEnabled : bool;
  soundVolume : Z
}.

(** [AppState.settings] as the source initialises it. *)
Definition defaultSettings : Settings := mkSettings 25 5 15 4 true 50.

Record Session : Type := mkSession {
  date : Z;
  hour : Z;
  duration : Z;
  type : string;
  timestamp : Z
}.

(** What [JSON.parse] gives back for the settings key: an object on which
    any of the six keys may be missing. *)
Record StoredSettings : Type := mkStored {
  st_pomodoroMinutes : option Z;
  st_shortBreakMinutes : option Z;
  st_longBreakMinutes : option Z;
  st_longBreakInterval : option Z;
  st_soundEnabled : option bool;
  st_soundVolume : option Z
}.

(** The settings dialog.  A numeric control is kept as the value
    [parseInt] computes from its text: [None] is [NaN]. *)
Record Form : Type := mkForm {
  in_pomodoroMinutes : option Z;
  in_shortBreakMinutes : option Z;
  in_longBreakMinutes : option Z;
  in_longBreakInterval : option Z;
  in_soundEnabled : bool;
  in_soundVolume : option Z
}.

Record World : Type := mkWorld {
  (* AppState *)
  currentMode : Mode;
  isRunning : bool;
  timeRemaining : Z;
  totalTime : Z;
  timerInterval : option positive;
  completedPomodoros : Z;
  settings : Settings;
  sessions : list Session;
  (* localStorage: the two keys, and whether the store can be used at all *)
  storageAvailable : bool;
  item_settings : option StoredSettings;
  item_sessions : option (list Session);
  (* timers of the event loop *)
  intervals : list positive;
  nextTimerId : positive;
  timeouts : list Mode;
  (* the zone of the local clock, minutes east of UTC *)
  tzOffset : Z;
  (* observation: volumes handed to ALERT_SOUND.play, oldest first *)
  chimes : list Q;
  (* observation: the [skipped] argument of every call of complete *)
  completions : list bool
}.

(** Field updates, one per field the program assigns. *)
Definition set_currentMode (m : Mode) (w : World) : World :=
  mkWorld m (isRunning w) (timeRemaining w) (totalTime w) (timerInterval w)
    (completedPomodoros w) (settings w) (sessions w) (storageAvailable w)
    (item_settings w) (item_sessions w) (intervals w) (nextTimerId w)
    (timeouts w) (tzOffset w) (chimes w) (completions w).

Definition set_isRunning (b : bool) (w : World) : World :=
  mkWorld (currentMode w) b (timeRemaining w) (totalTime w) (timerInterval w)
    (completedPomodoros w) (settings w) (sessions w) (storageAvailable w)
    (item_settings w) (item_sessions w) (intervals w) (nextTimerId w)
    (timeouts w) (tzOffset w) (chimes w) (completions w).

Definition set_timeRemaining (n : Z) (w : World) : World :=
  mkWorld (currentMode w) (isRunning w) n (totalTime w) (timerInterval w)
    (completedPomodoros w) (settings w) (sessions w) (storageAvailable w)
    (item_settings w) (item_sessions w) (intervals w) (nextTimerId w)
    (timeouts w) (tzOffset w) (chimes w) (completions w).

Definition set_totalTime (n : Z) (w : World) : World :=
  mkWorld (currentMode w) (isRunning w) (timeRemaining w) n (timerInterval w)
    (completedPomodoros w) (settings w) (sessions w) (storageAvailable w)
    (item_settings w) (item_sessions w) (intervals w) (nextTimerId w)
    (timeouts w) (tzOffset w) (chimes w) (completions w).

Definition set_timerInterval (h : option positive) (w : World) : World :=
  mkWorld (currentMode w) (isRunning w) (timeRemaining w) (totalTime w) h
    (completedPomodoros w) (settings w) (sessions w) (storageAvailable w)
    (item_settings w) (item_sessions w) (intervals w) (nextTimerId w)
    (timeouts w) (tzOffset w) (chimes w) (completions w).

Definition set_completedPomodoros (n : Z) (w : World) : World :=
  mkWorld (currentMode w) (isRunning w) (timeRemaining w) (totalTime w)
    (timerInterval w) n (settings w) (sessions w) (storageAvailable w)
    (item_settings w) (item_sessions w) (intervals w) (nextTimerId w)
    (timeouts w) (tzOffset w) (chimes w) (completions w).

Definition set_settings (s : Settings) (w : World) : World :=
  mkWorld (currentMode w) (isRunning w) (timeRemaining w) (totalTime w)
    (timerInterval w) (completedPomodoros w) s (sessions w)
    (storageAvailable w) (item_settings w) (item_sessions w) (intervals w)
    (nextTimerId w) (timeouts w) (tzOffset w) (chimes w) (completions w).

Definition set_sessions (l : list Session) (w : World) : World :=
  mkWorld (currentMode w) (isRunning w) (timeRemaining w) (totalTime w)
    (timerInterval w) (completedPomodoros w) (settings w) l
    (storageAvailable w) (item_settings w) (item_sessions w) (intervals w)
    (nextTimerId w) (timeouts w) (tzOffset w) (chimes w) (completions w).

Definition set_item_settings (s : option StoredSettings) (w : World) : World :=
  mkWorld (currentMode w) (isRunning w) (timeRemaining w) (totalTime w)
    (timerInterval w) (completedPomodoros w) (settings w) (sessions w)
    (storageAvailable w) s (item_sessions w) (intervals w) (nextTimerId w)
    (timeouts w) (tzOffset w) (chimes w) (completions w).

Definition set_item_sessions (l : option (list Session)) (w : World) : World :=
  mkWorld (currentMode w) (isRunning w) (timeRemaining w) (totalTime w)
    (timerInterval w) (completedPomodoros w) (settings w) (sessions w)
    (storageAvailable w) (item_settings w) l (intervals w) (nextTimerId w)
    (timeouts w) (tzOffset w) (chimes w) (completions w).

Definition set_timers (l : list positive) (n : positive) (w : World) : World :=
  mkWorld (currentMode w) (isRunning w) (timeRemaining w) (totalTime w)
    (timerInterval w) (completedPomodoros w) (settings w) (sessions w)
    (storageAvailable w) (item_settings w) (item_sessions w) l n
    (timeouts w) (tzOffset w) (chimes w) (completions w).

Definition set_timeouts (l : list Mode) (w : World) : World :=
  mkWorld (currentMode w) (isRunning w) (timeRemaining w) (totalTime w)
    (timerInterval w) (completedPomodoros w) (settings w) (sessions w)
    (storageAvailable w) (item_settings w) (item_sessions w) (intervals w)
    (nextTimerId w) l (tzOffset w) (chimes w) (completions w).

Definition set_chimes (l : list Q) (w : World) : World :=
  mkWorld (currentMode w) (isRunning w) (timeRemaining w) (totalTime w)
    (timerInterval w) (completedPomodoros w) (settings w) (sessions w)
    (storageAvailable w) (item_settings w) (item_sessions w) (intervals w)
    (nextTimerId w) (timeouts w) (tzOffset w) l (completions w).

Definition set_completions (l : list bool) (w : World) : World :=
  mkWorld (currentMode w) (isRunning w) (timeRemaining w) (totalTime w)
    (timerInterval w) (completedPomodoros w) (settings w) (sessions w)
    (storageAvailable w) (item_settings w) (item_sessions w) (intervals w)
    (nextTimerId w) (timeouts w) (tzOffset w) (chimes w) l.

(* ================================================================= *)
(** ** The browser: timers and audio *)

Module Browser.

(** [setInterval(callback, 1000)]: a fresh, positive handle becomes active.
    The numbers are those of a counter of the model; what the program
    relies on is that they are fresh and nonzero. *)
Definition setInterval (w : World) : positive * World :=
  let h := nextTimerId w in
  (h, set_timers (intervals w ++ [h]) (Pos.succ h) w).

(** [clearInterval(h)]. *)
Definition clearInterval (h : positive) (w : World) : World :=
  set_timers (filter (fun k => negb (Pos.eqb k h)) (intervals w))
    (nextTimerId w) w.

(** [setTimeout(() => this.setMode(nextMode), 500)]: all delays are equal,
    so the pending calls run in the order they were scheduled. *)
Definition setTimeout (next : Mode) (w : World) : World :=
  set_timeouts (timeouts w ++ [next]) w.

(** [ALERT_SOUND.play(volume)]. *)
Definition play (volume : Q) (w : World) : World :=
  set_chimes (chimes w ++ [volume]) w.

Definition active (h : positive) (w : World) : bool :=
  existsb (Pos.eqb h) (intervals w).

End Browser.

(* ================================================================= *)
(** ** StorageManager *)

Module StorageManager.

(** [{ ...base, ...saved }]. *)
Definition merge (base : Settings) (saved : StoredSettings) : Settings :=
  let pick {A} (o : option A) (d : A) := match o with Some v => v | None => d end in
  mkSettings
    (pick (st_pomodoroMinutes saved) (pomodoroMinutes base))
    (pick (st_shortBreakMinutes saved) (shortBreakMinutes base))
    (pick (st_longBreakMinutes saved) (longBreakMinutes base))
    (pick (st_longBreakInterval saved) (longBreakInterval base))
    (pick (st_soundEnabled saved) (soundEnabled base))
    (pick (st_soundVolume saved) (soundVolume base)).

(** [{}]: what [load] falls back on for the settings key. *)
Definition emptyStored : StoredSettings :=
  mkStored None None None None None None.

(** [JSON.parse(JSON.stringify(settings))]. *)
Definition stringify (s : Settings) : StoredSettings :=
  mkStored (Some (pomodoroMinutes s)) (Some (shortBreakMinutes s))
    (Some (longBreakMinutes s)) (Some (longBreakInterval s))
    (Some (soundEnabled s)) (Some (soundVolume s)).

(** [load(key, defaultValue)]: a store that throws, a missing key and an
    unreadable payload all give the default. *)
Definition load {A} (avail : bool) (item : option A) (defaultValue : A) : A :=
  if avail then match item with Some v => v | None => defaultValue end
  else defaultValue.

Definition loadSettings (w : World) : Settings :=
  let saved := load (storageAvailable w) (item_settings w) emptyStored in
  merge (settings w) saved.

(** [save] swallows the exception of a store that cannot be written. *)
Definition saveSettings (s : Settings) (w : World) : World :=
  if storageAvailable w then set_item_settings (Some (stringify s)) w else w.

Definition loadSessions (w : World) : list Session :=
  load (storageAvailable w) (item_sessions w) [].

Definition saveSessions (l : list Session) (w : World) : World :=
  if storageAvailable w then set_item_sessions (Some l) w else w.

(** The instant 90 days before [now]. *)
Definition cutoff (now : Z) : Z := JsDate.addDays now (-90).

Definition addSession (now : Z) (session : Session) (w : World)
  : list Session * World :=
  let sessions := loadSessions w ++ [session] in
  let cutoff := cutoff now in
  let filtered := filter (fun s => cutoff <=? JsDate.parse (date s)) sessions in
  (filtered, saveSessions filtered w).

End StorageManager.


(* ================================================================= *)
(** ** TimerController *)

Module TimerController.

(** [getModeSettings()[mode].minutes]. *)
Definition minutes (s : Settings) (mode : Mode) : Z :=
  match mode with
  | pomodoro => pomodoroMinutes s
  | shortBreak => shortBreakMinutes s
  | longBreak => longBreakMinutes s
  end.

(** [getModeSettings()[mode].label]. *)
Definition label (mode : Mode) : string :=
  match mode with
  | pomodoro => "Focus Time"
  | shortBreak => "Short Break"
  | longBreak => "Long Break"
  end.

(** [if (AppState.timerInterval) { clearInterval(AppState.timerInterval);
    AppState.timerInterval = null; }]: a handle is a positive number, hence
    truthy. *)
Definition cancelTimer (w : World) : World :=
  match timerInterval w with
  | Some h => set_timerInterval None (Browser.clearInterval h w)
  | None => w
  end.

Definition setMode (mode : Mode) (w : World) : World :=
  let w := set_currentMode mode w in
  let w := set_totalTime (minutes (settings w) mode * 60) w in
  let w := set_timeRemaining (totalTime w) w in
  let w := set_isRunning false w in
  cancelTimer w.

Definition pause (w : World) : World :=
  if negb (isRunning w) then w
  else
    let w := set_isRunning false w in
    cancelTimer w.

(** [a % b === 0] on numbers: [a % 0] is [NaN], which equals nothing;
    otherwise the remainder takes the sign of [a]. *)
Definition remIsZero (a b : Z) : bool :=
  if b =? 0 then false else Z.rem a b =? 0.

(** The value of [nextMode] computed by [complete]. *)
Definition nextMode (w : World) : Mode :=
  match currentMode w with
  | pomodoro =>
      if remIsZero (completedPomodoros w) (longBreakInterval (settings w))
      then longBreak else shortBreak
  | _ => pomodoro
  end.

(** [complete(skipped = false)], called at instant [now].  The first line
    only records the call. *)
Definition complete (now : Z) (skipped : bool) (w : World) : World :=
  let w := set_completions (completions w ++ [skipped]) w in
  let w := pause w in
  let w :=
    if soundEnabled (settings w)
    then Browser.play (soundVolume (settings w) # 100) w
    else w in
  let w :=
    if Mode_eqb (currentMode w) pomodoro && negb skipped then
      let w := set_completedPomodoros (completedPomodoros w + 1) w in
      let session :=
        mkSession (JsDate.toISODate now) (JsDate.getHours (tzOffset w) now)
          (pomodoroMinutes (settings w)) "pomodoro" now in
      let '(filtered, w) := StorageManager.addSession now session w in
      set_sessions filtered w
    else w in
  Browser.setTimeout (nextMode w) w.

(** The callback [start] hands to [setInterval]. *)
Definition tick (now : Z) (w : World) : World :=
  let w := set_timeRemaining (timeRemaining w - 1) w in
  if timeRemaining w <=? 0 then complete now false w else w.

Definition start (w : World) : World :=
  if isRunning w then w
  else
    let w := set_isRunning true w in
    let '(h, w) := Browser.setInterval w in
    set_timerInterval (Some h) w.

Definition toggle (w : World) : World :=
  if isRunning w then pause w else start w.

Definition reset (w : World) : World :=
  let w := pause w in
  let w := set_timeRemaining (minutes (settings w) (currentMode w) * 60) w in
  set_totalTime (minutes (settings w) (currentMode w) * 60) w.

Definition skip (now : Z) (w : World) : World :=
  let w := pause w in
  complete now true w.

End TimerController.

(* ================================================================= *)
(** ** Numbers as text *)

Module JsString.

(** [String(n)] and [`${n}`] for an integer [n]. *)
Definition toString (n : Z) : string := NilZero.string_of_int (Z.to_int n).

(** [s.padStart(2, '0')]. *)
Definition padStart2 (s : string) : string :=
  (concat "" (repeat "0" (2 - String.length s)) ++ s)%string.

End JsString.

(* ================================================================= *)
(** ** UIController: settings *)

Module UIController.

(** [x || d] on the result of [parseInt]: [NaN] and [0] are falsy. *)
Definition orDefault (x : option Z) (d : Z) : Z :=
  match x with
  | None => d
  | Some 0 => d
  | Some n => n
  end.

(** [Math.min(hi, Math.max(lo, x))]. *)
Definition clamp (lo hi x : Z) : Z := Z.min hi (Z.max lo x).

(** The object [saveSettings] builds from the dialog and then validates. *)
Definition newSettings (f : Form) : Settings :=
  let pomodoroMinutes := orDefault (in_pomodoroMinutes f) 25 in
  let shortBreakMinutes := orDefault (in_shortBreakMinutes f) 5 in
  let longBreakMinutes := orDefault (in_longBreakMinutes f) 15 in
  let longBreakInterval := orDefault (in_longBreakInterval f) 4 in
  let soundEnabled := in_soundEnabled f in
  let soundVolume := orDefault (in_soundVolume f) 50 in
  mkSettings
    (clamp 1 90 pomodoroMinutes)
    (clamp 1 30 shortBreakMinutes)
    (clamp 1 60 longBreakMinutes)
    (clamp 2 8 longBreakInterval)
    soundEnabled
    soundVolume.

Definition saveSettings (f : Form) (w : World) : World :=
  let s := newSettings f in
  let w := set_settings s w in
  let w := StorageManager.saveSettings s w in
  TimerController.setMode (currentMode w) w.

(** What the dialog shows once it has been filled in from [settings]: each
    control reads back the number it was given. *)
Definition populateSettingsForm (s : Settings) : Form :=
  mkForm (Some (pomodoroMinutes s)) (Some (shortBreakMinutes s))
    (Some (longBreakMinutes s)) (Some (longBreakInterval s))
    (soundEnabled s) (Some (soundVolume s)).

(* ----------------------------------------------------------------- *)
(** *** UIController: statistics *)

(** [s.type === 'pomodoro']. *)
Definition isPomodoro (s : Session) : bool := String.eqb (type s) "pomodoro".

(** [sessions.some(s => s.date === dateStr && s.type === 'pomodoro')]. *)
Definition hasSessions (sessions : list Session) (dateStr : Z) : bool :=
  existsb (fun s => (date s =? dateStr) && isPomodoro s) sessions.

(** The [while (true)] loop of [calculateStreak]; [None] when [fuel]
    iterations were not enough to reach its [break]. *)
Fixpoint streakLoop (fuel : nat) (sessions : list Session) (today : Z)
    (checkDate : Z) (streak : Z) : option Z :=
  match fuel with
  | O => None
  | S fuel =>
      let dateStr := JsDate.toISODate checkDate in
      if hasSessions sessions dateStr then
        streakLoop fuel sessions today (JsDate.addDays checkDate (-1)) (streak + 1)
      else if dateStr =? JsDate.toISODate today then
        streakLoop fuel sessions today (JsDate.addDays checkDate (-1)) streak
      else Some streak
  end.

(** [calculateStreak()] at instant [now]; the loop is given one iteration
    per stored session and two more. *)
Definition calculateStreak (now : Z) (w : World) : option Z :=
  let today := JsDate.startOfDay (tzOffset w) now in
  streakLoop (S (S (List.length (sessions w)))) (sessions w) today today 0.

(** [list.reduce((sum, s) => sum + s.duration, 0)]. *)
Definition sumDuration (l : list Session) : Z :=
  fold_left (fun sum s => sum + duration s) l 0.

(** [formatDateLabel(date, totalDays)]. *)
Definition formatDateLabel (tz : Z) (date : Z) (totalDays : Z) : string :=
  if totalDays <=? 7 then JsDate.weekdayShort tz date else JsDate.monthDay tz date.

(** [arr[i] += d] on an array of numbers.  A slot that holds no number
    ([None]: a hole or [NaN]) stays that way; an index past the end grows
    the array, the new slot holding [undefined + d], which is [NaN]; a
    negative index names a property and leaves the elements alone. *)
Fixpoint addAt (arr : list (option Z)) (i : nat) (d : Z) : list (option Z) :=
  match arr, i with
  | [], _ => repeat None i ++ [None]
  | x :: rest, O => option_map (fun v => v + d) x :: rest
  | x :: rest, S i => x :: addAt rest i d
  end.

Definition arrayAdd (arr : list (option Z)) (i : Z) (d : Z) : list (option Z) :=
  if i <? 0 then arr else addAt arr (Z.to_nat i) d.

(** One element of [dailyData]. *)
Module Daily.
Record Entry : Type := mkEntry {
  date : Z;
  label : string;
  minutes : Z;
  pomodoros : Z
}.
End Daily.

Record PeriodStats : Type := mkPeriodStats {
  totalPomodoros : Z;
  totalMinutes : Z;
  dailyData : list Daily.Entry;
  hourlyData : list (option Z)
}.

Definition calculatePeriodStats (now : Z) (days : Z) (w : World) : PeriodStats :=
  let tz := tzOffset w in
  let endDate := JsDate.endOfDay tz now in
  let startDate := JsDate.startOfDay tz (JsDate.addDays endDate (- days + 1)) in
  let periodSessions :=
    filter (fun s =>
              let sessionDate := JsDate.parse (date s) in
              (startDate <=? sessionDate) && (sessionDate <=? endDate)
              && isPomodoro s)
           (sessions w) in
  let dailyData :=
    map (fun i =>
           let day := JsDate.addDays startDate (Z.of_nat i) in
           let dateStr := JsDate.toISODate day in
           let daySessions :=
             filter (fun s => date s =? dateStr) periodSessions in
           Daily.mkEntry dateStr (formatDateLabel tz day days)
             (sumDuration daySessions) (Z.of_nat (List.length daySessions)))
        (seq 0 (Z.to_nat days)) in
  let hourlyData :=
    fold_left (fun arr s => arrayAdd arr (hour s) (duration s))
      periodSessions (repeat (Some 0) 24) in
  mkPeriodStats (Z.of_nat (List.length periodSessions)) (sumDuration periodSessions)
    dailyData hourlyData.


(* ----------------------------------------------------------------- *)
(** *** UIController: what the page shows *)

(** The text [updateTimer] writes to the timer display. *)
Definition updateTimer (w : World) : string :=
  let minutes := timeRemaining w / 60 in
  let seconds := Z.rem (timeRemaining w) 60 in
  (JsString.padStart2 (JsString.toString minutes) ++ ":"
   ++ JsString.padStart2 (JsString.toString seconds))%string.

(** The page title [updateTimer] sets. *)
Definition title (w : World) : string := (updateTimer w ++ " - Pomodoro")%string.

(** What [updateTodayStats] writes, at instant [now]: the number of today's
    sessions, the focus time as text, and the streak. *)
Record TodayStats : Type := mkTodayStats {
  todayPomodoros : Z;
  todayFocusTime : string;
  currentStreak : option Z
}.

Definition updateTodayStats (now : Z) (w : World) : TodayStats :=
  let today := JsDate.toISODate now in
  let todaySessions :=
    filter (fun s => (date s =? today) && isPomodoro s) (sessions w) in
  let pomodoros := Z.of_nat (List.length todaySessions) in
  let totalMinutes := sumDuration todaySessions in
  let hours := totalMinutes / 60 in
  let minutes := Z.rem totalMinutes 60 in
  mkTodayStats pomodoros
    (if 0 <? hours
     then (JsString.toString hours ++ "h " ++ JsString.toString minutes ++ "m")%string
     else (JsString.toString minutes ++ "m")%string)
    (calculateStreak now w).

Definition loadSettings (w : World) : World :=
  set_settings (StorageManager.loadSettings w) w.

Definition loadSessions (w : World) : World :=
  set_sessions (StorageManager.loadSessions w) w.

Definition resetSettingsToDefaults (w : World) : World :=
  set_settings (mkSettings 25 5 15 4 true 50) w.

(** [init()], as far as the state goes. *)
Definition init (w : World) : World :=
  loadSessions (loadSettings w).

End UIController.

(* ================================================================= *)
(** ** ChartRenderer: scale and colours *)

Module ChartRenderer.

(** In [drawFocusChart]: [Math.max(...data.map(d => d.minutes), 60)]. *)
Definition maxMinutes (data : list UIController.Daily.Entry) : Z :=
  fold_left Z.max (map UIController.Daily.minutes data) 60.

(** In [drawFocusChart]: [Math.ceil(maxMinutes / 60)], the hours the
    vertical axis spans. *)
Definition maxHours (data : list UIController.Daily.Entry) : Z :=
  - ((- maxMinutes data) / 60).

Definition code (c : ascii) : Z := Z.of_nat (nat_of_ascii c).

(** The value of a hexadecimal digit, in either case. *)
Definition hexValue (c : ascii) : option Z :=
  let n := code c in
  if (48 <=? n) && (n <=? 57) then Some (n - 48)
  else if (65 <=? n) && (n <=? 70) then Some (n - 55)
  else if (97 <=? n) && (n <=? 102) then Some (n - 87)
  else None.

Definition isDigit (c : ascii) : bool := (48 <=? code c) && (code c <=? 57).

(** White space that [parseInt] skips, among the ASCII characters. *)
Definition isWhiteSpace (c : ascii) : bool :=
  let n := code c in
  (n =? 9) || (n =? 10) || (n =? 11) || (n =? 12) || (n =? 13) || (n =? 32).

Fixpoint trimStart (s : string) : string :=
  match s with
  | String c rest => if isWhiteSpace c then trimStart rest else s
  | EmptyString => s
  end.

(** The number the leading hexadecimal digits of [s] spell, continuing
    [acc]; [None] when there has been no digit. *)
Fixpoint hexDigits (s : string) (acc : option Z) : option Z :=
  match s with
  | String c rest =>
      match hexValue c with
      | Some d =>
          hexDigits rest
            (Some (16 * match acc with Some a => a | None => 0 end + d))
      | None => acc
      end
  | EmptyString => acc
  end.

(** [parseInt(s, 16)], [None] being [NaN]: white space, a sign, an optional
    [0x], then digits up to the first character that is none.  The result
    is the exact integer, as [parseInt] gives it up to 13 digits. *)
Definition parseInt16 (s : string) : option Z :=
  let s := trimStart s in
  let '(sign, s) :=
    match s with
    | String "-" rest => (-1, rest)
    | String "+" rest => (1, rest)
    | _ => (1, s)
    end in
  let s :=
    match s with
    | String "0" (String "x" rest) => rest
    | String "0" (String "X" rest) => rest
    | _ => s
    end in
  option_map (Z.mul sign) (hexDigits s None).

(** The 32-bit integer the bit operators make of a number; [NaN] gives 0. *)
Definition toInt32 (x : option Z) : Z :=
  match x with
  | Some n => (n + 2 ^ 31) mod 2 ^ 32 - 2 ^ 31
  | None => 0
  end.

(** [color.match(/\d+/g)]: the numbers spelled by the maximal runs of
    digits of [s], [cur] being the run under way. *)
Fixpoint digitRuns (s : string) (cur : option Z) : list Z :=
  match s with
  | String c rest =>
      if isDigit c then
        digitRuns rest
          (Some (10 * match cur with Some n => n | None => 0 end + (code c - 48)))
      else
        match cur with
        | Some n => n :: digitRuns rest None
        | None => digitRuns rest None
        end
  | EmptyString => match cur with Some n => [n] | None => [] end
  end.

(** The red, green and blue the two colour functions read from [color]:
    [None] when the text is of neither form and is handed back unchanged.  A
    component is [None] when it is [undefined]. *)
Definition components (color : string)
    : option (option Z * option Z * option Z) :=
  match color with
  | String "#" hex =>
      let num := parseInt16 hex in
      Some (Some (Z.shiftr (toInt32 num) 16),
            Some (Z.land (Z.shiftr (toInt32 num) 8) 255),
            Some (Z.land (toInt32 num) 255))
  | _ =>
      if prefix "rgb" color then
        match digitRuns color None with
        | [] => None
        | found => Some (nth_error found 0, nth_error found 1, nth_error found 2)
        end
      else None
  end.

(** [Math.min(255, Math.max(0, x + amount))]; [undefined + amount] is
    [NaN] and stays [NaN]. *)
Definition shade (x : option Z) (amount : Z) : option Z :=
  option_map (fun v => Z.min 255 (Z.max 0 (v + amount))) x.

(** [`${x}`] for a number or [NaN]. *)
Definition show (x : option Z) : string :=
  match x with
  | Some n => JsString.toString n
  | None => "NaN"
  end.

(** [`${x}`] for a number or [undefined]. *)
Definition showRaw (x : option Z) : string :=
  match x with
  | Some n => JsString.toString n
  | None => "undefined"
  end.

Definition adjustColor (color : string) (amount : Z) : string :=
  match components color with
  | Some (r, g, b) =>
      ("rgb(" ++ show (shade r amount) ++ ", " ++ show (shade g amount)
       ++ ", " ++ show (shade b amount) ++ ")")%string
  | None => color
  end.

(** [adjustColorOpacity(color, opacity)], [opacity] being the text the
    template prints for the number. *)
Definition adjustColorOpacity (color : string) (opacity : string) : string :=
  match components color with
  | Some (r, g, b) =>
      ("rgba(" ++ showRaw r ++ ", " ++ showRaw g ++ ", " ++ showRaw b ++ ", "
       ++ opacity ++ ")")%string
  | None => color
  end.

End ChartRenderer.

(* ================================================================= *)
(** ** The event loop *)

(** The page as the script finds it when it is loaded: [AppState] with its
    literal values, no timer pending, and whatever the browser holds. *)
Definition pageLoad (tz : Z) (avail : bool) (saved : option StoredSettings)
    (history : option (list Session)) : World :=
  mkWorld pomodoro false (25 * 60) (25 * 60) None 0 defaultSettings []
    avail saved history [] 1%positive [] tz [] [].

(** The [DOMContentLoaded] handler. *)
Definition boot (tz : Z) (avail : bool) (saved : option StoredSettings)
    (history : option (list Session)) : World :=
  TimerController.setMode pomodoro
    (UIController.init (pageLoad tz avail saved history)).

(** What can happen next: a click or key of the user, the interval timer
    with handle [h] coming due, or the oldest pending timeout coming due.
    Events that read the clock carry its reading. *)
Inductive Event : Type :=
| StartPauseClick
| ResetClick
| SkipClick (now : Z)
| ModeTabClick (mode : Mode)
| SaveSettingsClick (f : Form)
| ResetSettingsClick
| IntervalFires (h : positive) (now : Z)
| DelayElapsed.

Definition handle (e : Event) (w : World) : World :=
  match e with
  | StartPauseClick => TimerController.toggle w
  | ResetClick => TimerController.reset w
  | SkipClick now => TimerController.skip now w
  | ModeTabClick mode => TimerController.setMode mode w
  | SaveSettingsClick f => UIController.saveSettings f w
  | ResetSettingsClick => UIController.resetSettingsToDefaults w
  | IntervalFires h now =>
      if Browser.active h w then TimerController.tick now w else w
  | DelayElapsed =>
      match timeouts w with
      | next :: rest => TimerController.setMode next (set_timeouts rest w)
      | [] => w
      end
  end.

(** The world after the events of [es], oldest first. *)
Definition run (es : list Event) (w : World) : World :=
  fold_left (fun w e => handle e w) es w.

(** [n] firings of interval [h], at the instants of [nows]. *)
Definition ticks (h : positive) (nows : list Z) (w : World) : World :=
  run (map (IntervalFires h) nows) w.

(* ================================================================= *)
(** ** Definitions used to state the properties *)

(** The page of a first visit: nothing stored, local clock on UTC. *)
Definition freshPage : World := boot 0 true None None.

(** A page whose local clock is one hour ahead of UTC. *)
Definition pageEastOfUTC : World := boot 60 true None None.

(** The timer flag and the handle agree, and the handle is the only
    interval the browser still runs. *)
Definition tickSourceInv (w : World) : Prop :=
  match timerInterval w with
  | Some h => isRunning w = true /\ intervals w = [h]
  | None => isRunning w = false /\ intervals w = []
  end.

(** No tick source: none in [AppState], none left in the browser. *)
Definition quiet (w : World) : Prop :=
  timerInterval w = None /\ isRunning w = false /\ intervals w = [].

(** A running timer owns a live interval. *)
Definition tickSourceLive (w : World) : Prop :=
  isRunning w = true ->
  exists h, timerInterval w = Some h /\ Browser.active h w = true.

(** [l1] is [l2] with some elements left out, the others in their order. *)
Inductive Subseq {A : Type} : list A -> list A -> Prop :=
| Subseq_nil : Subseq [] []
| Subseq_skip : forall x l1 l2, Subseq l1 l2 -> Subseq l1 (x :: l2)
| Subseq_keep : forall x l1 l2, Subseq l1 l2 -> Subseq (x :: l1) (x :: l2).

(** The session's day began before the instant 90 days before [now]. *)
Definition olderThan90Days (now : Z) (s : Session) : Prop :=
  JsDate.parse (date s) < now - 90 * JsDate.MS_PER_DAY.

(** The ranges [saveSettings] validates against, and the one of the volume
    slider. *)
Definition durationsInRange (s : Settings) : Prop :=
  1 <= pomodoroMinutes s <= 90 /\
  1 <= shortBreakMinutes s <= 30 /\
  1 <= longBreakMinutes s <= 60 /\
  2 <= longBreakInterval s <= 8.

Definition volumeInRange (s : Settings) : Prop := 0 <= soundVolume s <= 100.

(** The session is a focus session whose day begins within the window of
    [days] local days that ends with the local day of [now]. *)
Definition inPeriod (tz now days : Z) (s : Session) : bool :=
  (JsDate.addDays (JsDate.startOfDay tz now) (- days + 1) <=? JsDate.parse (date s))
  && (JsDate.parse (date s) <=? JsDate.endOfDay tz now)
  && UIController.isPomodoro s.

(** The count [complete] tests: already incremented when the completion is
    a focus one that was not skipped. *)
Definition countAfter (skipped : bool) (w : World) : Z :=
  if Mode_eqb (currentMode w) pomodoro && negb skipped
  then completedPomodoros w + 1 else completedPomodoros w.

(** 1 January 2024 is day 19723.  Instants of the scenarios below, in
    milliseconds since the epoch. *)
Definition jan1 : Z := 19723.
Definition jan2 : Z := 19724.

(** 2024-01-01T23:30Z, half past midnight of 2 January one hour east. *)
Definition jan1_2330Z : Z := jan1 * 86400000 + 23 * 3600000 + 1800000.
(** 2024-01-01T09:00Z and 2024-01-02T09:00Z: ten in the morning one hour
    east. *)
Definition jan1_0900Z : Z := jan1 * 86400000 + 9 * 3600000.
Definition jan2_0900Z : Z := jan2 * 86400000 + 9 * 3600000.
(** 2024-01-02T11:00Z: noon one hour east. *)
Definition jan2_1100Z : Z := jan2 * 86400000 + 11 * 3600000.
(** 2024-01-02T13:30Z and 14:00Z: 14:30 and 15:00 one hour east. *)
Definition jan2_1330Z : Z := jan2 * 86400000 + 13 * 3600000 + 1800000.
Definition jan2_1400Z : Z := jan2 * 86400000 + 14 * 3600000.
(** 2024-01-02T14:30Z and 15:00Z. *)
Definition jan2_1430Z : Z := jan2 * 86400000 + 14 * 3600000 + 1800000.
Definition jan2_1500Z : Z := jan2 * 86400000 + 15 * 3600000.

(** Stored settings that only set the focus time. *)
Definition focusOf (m : Z) : option StoredSettings :=
  Some (mkStored (Some m) None None None None None).

(** The interval with handle [h] coming due once a second, [n] times, the
    last time at [finish]. *)
Definition secondsUntil (h : positive) (n : nat) (finish : Z) : list Event :=
  map (fun i => IntervalFires h (finish - 1000 * (Z.of_nat n - Z.of_nat i)))
      (seq 1 n).

(** The user runs a one-minute focus interval to its end on 1 January and
    another on 2 January, both ending at ten in the morning local time one
    hour east of UTC (nine o'clock UTC), and picks the focus tab again
    in between. *)
Definition twoMorningsOfFocus : list Event :=
  [StartPauseClick] ++ secondsUntil 1 60 jan1_0900Z ++
  [DelayElapsed; ModeTabClick pomodoro; StartPauseClick] ++
  secondsUntil 2 60 jan2_0900Z ++ [DelayElapsed].

(** The user starts the timer of a fresh page and leaves it alone: the
    interval comes due [n] times, the last time at [finish], and the delay
    before the change of mode elapses. *)
Definition focusIntervalEndingAt (n : nat) (finish : Z) : list Event :=
  [StartPauseClick] ++ secondsUntil 1 n finish ++ [DelayElapsed].

(** The session [complete] builds at instant [now]. *)
Definition newSession (now : Z) (w : World) : Session :=
  mkSession (JsDate.toISODate now) (JsDate.getHours (tzOffset w) now)
    (pomodoroMinutes (settings w)) "pomodoro" now.

(** The stored sessions that the pruning at instant [now] keeps. *)
Definition keptAt (now : Z) (w : World) : list Session :=
  filter (fun s => negb (JsDate.parse (date s) <? now - 90 * JsDate.MS_PER_DAY))
    (StorageManager.loadSessions w).


(** [AppState.sessions] is what the store holds, as long as the store can
    be used. *)
Definition mirrored (w : World) : Prop :=
  storageAvailable w = true /\
  sessions w = match item_sessions w with Some l => l | None => [] end.

(** The hour is an hour of the day. *)
Definition hourOfDay (s : Session) : Prop := 0 <= hour s < 24.

(** The hours in memory and in the store are hours of the day. *)
Definition hoursInRange (w : World) : Prop :=
  Forall hourOfDay (sessions w) /\
  Forall hourOfDay (match item_sessions w with Some l => l | None => [] end).

(** The label of a chart entry for the local day [day]: the weekday in
    the week's view, month and day of the month in the longer one. *)
Definition labelOfLocalDay (day days : Z) : string :=
  if days <=? 7 then nth (Z.to_nat ((day + 4) mod 7)) JsDate.weekdayNames ""%string
  else
    let '(_, m, d) := JsDate.civil day in
    (nth (Z.to_nat (m - 1)) JsDate.monthNames "" ++ " " ++ JsDate.numeric d)%string.

(** Today's focus sessions, by the date [updateTodayStats] compares with. *)
Definition isToday (now : Z) (s : Session) : bool :=
  (date s =? JsDate.toISODate now) && UIController.isPomodoro s.

Definition sumZ (l : list Z) : Z := fold_right Z.add 0 l.

(** Reads a text of the form [dd:dd] as minutes and seconds. *)
Definition readTimer (text : string) : option Z :=
  match text with
  | String m1 (String m2 (String ":" (String s1 (String s2 EmptyString)))) =>
      if ChartRenderer.isDigit m1 && ChartRenderer.isDigit m2
         && ChartRenderer.isDigit s1 && ChartRenderer.isDigit s2
      then Some ((10 * (ChartRenderer.code m1 - 48) + (ChartRenderer.code m2 - 48)) * 60
                 + 10 * (ChartRenderer.code s1 - 48) + (ChartRenderer.code s2 - 48))
      else None
  | _ => None
  end.

(* ================================================================= *)
(** ** Basic facts *)

(** Runs the operations of the timer on a world given by its fields. *)
Ltac eval_world :=
  cbv [TimerController.skip TimerController.tick TimerController.complete
       TimerController.reset TimerController.toggle TimerController.start
       TimerController.pause TimerController.setMode TimerController.nextMode
       TimerController.cancelTimer TimerController.minutes
       StorageManager.addSession StorageManager.saveSessions
       StorageManager.saveSettings StorageManager.loadSessions
       StorageManager.load UIController.saveSettings
       UIController.resetSettingsToDefaults
       Browser.setTimeout Browser.play Browser.setInterval
       Browser.clearInterval Browser.active
       set_currentMode set_isRunning set_timeRemaining set_totalTime
       set_timerInterval set_completedPomodoros set_settings set_sessions
       set_item_settings set_item_sessions set_timers set_timeouts set_chimes
       set_completions
       currentMode isRunning timeRemaining totalTime timerInterval
       completedPomodoros settings sessions storageAvailable item_settings
       item_sessions intervals nextTimerId timeouts tzOffset chimes completions
       pomodoroMinutes shortBreakMinutes longBreakMinutes longBreakInterval
       soundEnabled soundVolume
       tickSourceInv quiet countAfter
       negb andb orb Mode_eqb].

(** Settles a conjunction of closed equations by evaluation. *)
Ltac by_evaluation :=
  repeat match goal with |- _ /\ _ => split end; vm_compute; reflexivity.

Ltac open_world w :=
  destruct w as [mode running ? ? ticker ? [? ? ? ? sound ?] ? avail ? ? ? ? ? ? ? ?].

(* ================================================================= *)
(** ** The chime (C1) *)

(** C1, as the code has it: every call of [complete] plays the chime
    exactly when [soundEnabled] is set, whatever the mode and whether or not
    the interval was skipped, and the volume handed over is
    [soundVolume / 100]. *)
Theorem complete_chime (now : Z) (skipped : bool) (w : World) :
  chimes (TimerController.complete now skipped w) =
  chimes w ++
  (if soundEnabled (settings w) then [soundVolume (settings w) # 100] else []).
Proof.
  open_world w. destruct running, ticker, sound, mode, skipped, avail;
    eval_world; rewrite ?app_nil_r; reflexivity.
Qed.

(** C1 as stated fails: with sound enabled the chime is played when the
    user skips a focus interval, and when a short break runs out. *)
Lemma chime_on_skip_and_on_break :
  completions (run [SkipClick 0] freshPage) = [true] /\
  chimes (run [SkipClick 0] freshPage) = [50 # 100] /\
  currentMode
    (run ([ModeTabClick shortBreak; StartPauseClick]
          ++ secondsUntil 1 300 300000) freshPage) = shortBreak /\
  completions
    (run ([ModeTabClick shortBreak; StartPauseClick]
          ++ secondsUntil 1 300 300000) freshPage) = [false] /\
  chimes
    (run ([ModeTabClick shortBreak; StartPauseClick]
          ++ secondsUntil 1 300 300000) freshPage) = [50 # 100].
Proof. by_evaluation. Qed.

(* ================================================================= *)
(** ** The next mode (C3) *)

Lemma remIsZero_mod (a b : Z) :
  b <> 0 -> (TimerController.remIsZero a b = true <-> a mod b = 0).
Proof.
  intros Hb. unfold TimerController.remIsZero.
  destruct (Z.eqb_spec b 0) as [|_]; [contradiction|].
  rewrite Z.eqb_eq, Z.rem_divide, Z.mod_divide by assumption. reflexivity.
Qed.

(** What [complete] leaves behind: the mode is untouched, the counter is
    [countAfter], and one more call of [setMode] is pending. *)
Lemma complete_effect (now : Z) (skipped : bool) (w : World) :
  currentMode (TimerController.complete now skipped w) = currentMode w /\
  completedPomodoros (TimerController.complete now skipped w) = countAfter skipped w /\
  settings (TimerController.complete now skipped w) = settings w /\
  timeouts (TimerController.complete now skipped w) =
    timeouts w ++
    [match currentMode w with
     | pomodoro =>
         if TimerController.remIsZero (countAfter skipped w)
              (longBreakInterval (settings w))
         then longBreak else shortBreak
     | _ => pomodoro
     end].
Proof.
  open_world w. destruct running, ticker, sound, mode, skipped, avail;
    eval_world; auto.
Qed.

(** C3: a completion in focus mode schedules the long break exactly when the
    counter of completed focus intervals (already incremented if the
    completion was not skipped) is a multiple of [longBreakInterval], and the
    short break otherwise; a completion in either break schedules focus.  In
    particular the focus completion that takes the counter from
    [longBreakInterval - 1] to [longBreakInterval] schedules the long break. *)
Theorem complete_next_mode (now : Z) (skipped : bool) (w : World) :
  longBreakInterval (settings w) <> 0 ->
  exists next,
    timeouts (TimerController.complete now skipped w) = timeouts w ++ [next] /\
    (currentMode w = pomodoro ->
       (next = longBreak <->
          countAfter skipped w mod longBreakInterval (settings w) = 0) /\
       (next = shortBreak <->
          countAfter skipped w mod longBreakInterval (settings w) <> 0)) /\
    (currentMode w <> pomodoro -> next = pomodoro) /\
    (currentMode w = pomodoro -> skipped = false ->
       completedPomodoros w = longBreakInterval (settings w) - 1 ->
       next = longBreak).
Proof.
  intros Hi.
  destruct (complete_effect now skipped w) as (_ & _ & _ & Ht).
  eexists. split; [exact Ht|].
  pose proof (remIsZero_mod (countAfter skipped w) _ Hi) as Hrem.
  split; [|split].
  - intros Hm. rewrite Hm.
    destruct (TimerController.remIsZero (countAfter skipped w)
                (longBreakInterval (settings w))) eqn:Hb.
    + assert (Hz : countAfter skipped w mod longBreakInterval (settings w) = 0)
        by (apply Hrem; reflexivity).
      split; split; intros; try reflexivity; try assumption;
        try discriminate; try contradiction.
    + assert (Hnz : countAfter skipped w mod longBreakInterval (settings w) <> 0)
        by (intros Hz; apply Hrem in Hz; discriminate).
      split; split; intros; try reflexivity; try assumption;
        try discriminate; try contradiction.
  - intros Hb. destruct (currentMode w); congruence.
  - intros Hm Hsk Hc. rewrite Hm.
    assert (Hz : countAfter skipped w mod longBreakInterval (settings w) = 0).
    { unfold countAfter. rewrite Hm, Hsk, Hc. simpl.
      replace (longBreakInterval (settings w) - 1 + 1)
        with (longBreakInterval (settings w)) by lia.
      apply Z.mod_same. assumption. }
    apply Hrem in Hz. rewrite Hz. reflexivity.
Qed.

(** The default page, one focus interval short of the long break. *)
Lemma complete_next_mode_witness :
  longBreakInterval (settings (set_completedPomodoros 3 freshPage)) <> 0 /\
  exists next,
    timeouts (TimerController.complete 0 false (set_completedPomodoros 3 freshPage))
      = timeouts (set_completedPomodoros 3 freshPage) ++ [next] /\
    next = longBreak.
Proof.
  assert (Hi : longBreakInterval (settings (set_completedPomodoros 3 freshPage)) <> 0)
    by (vm_compute; discriminate).
  split; [exact Hi|].
  destruct (complete_next_mode 0 false (set_completedPomodoros 3 freshPage) Hi)
    as (next & Ht & _ & _ & Hp).
  exists next. split; [exact Ht|].
  apply Hp; reflexivity.
Defined.

(* ================================================================= *)
(** ** The countdown (C2) *)

Lemma ticks_app (h : positive) (l1 l2 : list Z) (w : World) :
  ticks h (l1 ++ l2) w = ticks h l2 (ticks h l1 w).
Proof. unfold ticks, run. rewrite map_app, fold_left_app. reflexivity. Qed.

Lemma not_active_after_clear (h : positive) (l : list positive) :
  existsb (Pos.eqb h) (filter (fun k => negb (Pos.eqb k h)) l) = false.
Proof.
  induction l as [|k l IH]; simpl; [reflexivity|].
  destruct (Pos.eqb_spec k h) as [->|Hne]; simpl; [exact IH|].
  rewrite IH. destruct (Pos.eqb_spec h k); [congruence|reflexivity].
Qed.

(** A cancelled interval no longer reaches the program. *)
Lemma ticks_inactive (h : positive) (nows : list Z) (w : World) :
  Browser.active h w = false -> ticks h nows w = w.
Proof.
  intros Hoff. induction nows as [|now nows IH]; [reflexivity|].
  unfold ticks, run in *. simpl. rewrite Hoff. exact IH.
Qed.

(** While more than one second is left a tick only decrements. *)
Lemma ticks_countdown (h : positive) (nows : list Z) :
  forall w,
    Browser.active h w = true ->
    Z.of_nat (List.length nows) < timeRemaining w ->
    ticks h nows w =
    set_timeRemaining (timeRemaining w - Z.of_nat (List.length nows)) w.
Proof.
  induction nows as [|now nows IH]; intros w Hon Hlen.
  - destruct w; simpl in *. unfold ticks, run, set_timeRemaining. simpl.
    f_equal. lia.
  - change (ticks h (now :: nows) w)
      with (ticks h nows (handle (IntervalFires h now) w)).
    simpl List.length in *. simpl handle. rewrite Hon.
    unfold TimerController.tick.
    cbv zeta. simpl timeRemaining at 1.
    destruct (Z.leb_spec (timeRemaining w - 1) 0) as [Hle|_]; [lia|].
    rewrite IH.
    + unfold set_timeRemaining. simpl. f_equal. lia.
    + exact Hon.
    + simpl. lia.
Qed.

(** The tick that finds one second left completes the interval, once, and
    cancels its own source. *)
Lemma tick_last (h : positive) (now : Z) (w : World) :
  isRunning w = true -> timerInterval w = Some h -> timeRemaining w = 1 ->
  timeRemaining (TimerController.tick now w) = 0 /\
  completions (TimerController.tick now w) = completions w ++ [false] /\
  Browser.active h (TimerController.tick now w) = false.
Proof.
  open_world w. simpl. intros -> -> ->.
  destruct sound, mode, avail; eval_world;
    change (1 - 1 <=? 0) with true; cbv iota;
    auto using not_active_after_clear.
Qed.

Lemma start_live (w : World) :
  tickSourceLive w ->
  exists h,
    timerInterval (TimerController.start w) = Some h /\
    Browser.active h (TimerController.start w) = true /\
    isRunning (TimerController.start w) = true /\
    timeRemaining (TimerController.start w) = timeRemaining w /\
    completions (TimerController.start w) = completions w.
Proof.
  unfold tickSourceLive, TimerController.start.
  destruct (isRunning w) eqn:Hr; intros Hlive.
  - destruct (Hlive eq_refl) as (h & Hh & Hon). exists h. auto.
  - exists (nextTimerId w). unfold Browser.active, Browser.setInterval. simpl.
    repeat split. rewrite existsb_app. simpl. rewrite Pos.eqb_refl.
    apply orb_true_r.
Qed.

(** C2: from a timer with time on the clock, [start()] and then the tick
    signal delivered [totalTime] times leave [timeRemaining] at exactly 0
    with [complete(false)] called exactly once; the call is made by the tick
    whose decrement reaches 0, and no earlier tick makes one.  (The claim's
    [totalTime = minutes * 60] is not needed; what is needed is
    [0 < timeRemaining <= totalTime], as [setMode] and [reset] leave it.) *)
Theorem start_then_ticks_completes_once (w : World) (nows : list Z) :
  tickSourceLive w ->
  0 < timeRemaining w <= totalTime w ->
  Z.of_nat (List.length nows) = totalTime w ->
  exists h,
    timerInterval (TimerController.start w) = Some h /\
    timeRemaining (ticks h nows (TimerController.start w)) = 0 /\
    completions (ticks h nows (TimerController.start w)) =
      completions w ++ [false] /\
    forall k : nat,
      Z.of_nat k < timeRemaining w ->
      completions (ticks h (firstn k nows) (TimerController.start w)) =
        completions w /\
      timeRemaining (ticks h (firstn k nows) (TimerController.start w)) =
        timeRemaining w - Z.of_nat k.
Proof.
  intros Hlive Hrem Hlen.
  destruct (start_live w Hlive) as (h & Hh & Hon & Hrun & Htr & Hco).
  exists h. split; [exact Hh|].
  set (w1 := TimerController.start w) in *.
  assert (Hcount : forall k : nat,
             Z.of_nat k < timeRemaining w ->
             ticks h (firstn k nows) w1 =
             set_timeRemaining (timeRemaining w - Z.of_nat k) w1).
  { intros k Hk.
    assert (Hk' : List.length (firstn k nows) = k)
      by (apply firstn_length_le; lia).
    rewrite ticks_countdown; rewrite ?Hk', ?Htr; auto. }
  set (n := Z.to_nat (timeRemaining w - 1)).
  assert (Hn : Z.of_nat n = timeRemaining w - 1) by (unfold n; lia).
  assert (Hsplit : exists now rest, skipn n nows = now :: rest).
  { destruct (skipn n nows) as [|now rest] eqn:Hsk.
    - apply (f_equal (@List.length Z)) in Hsk. rewrite length_skipn in Hsk.
      simpl in Hsk. lia.
    - eauto. }
  destruct Hsplit as (now & rest & Hsk).
  assert (Hfinal : ticks h nows w1 =
                   ticks h rest (TimerController.tick now
                     (set_timeRemaining 1 w1))).
  { rewrite <- (firstn_skipn n nows) at 1. rewrite Hsk.
    rewrite ticks_app, Hcount by lia.
    replace (timeRemaining w - Z.of_nat n) with 1 by lia.
    change (ticks h (now :: rest) (set_timeRemaining 1 w1))
      with (ticks h rest (handle (IntervalFires h now) (set_timeRemaining 1 w1))).
    simpl handle.
    replace (Browser.active h (set_timeRemaining 1 w1)) with true; reflexivity
      || (symmetry; exact Hon). }
  destruct (tick_last h now (set_timeRemaining 1 w1)) as (Hz & Hc & Hoff);
    [exact Hrun | exact Hh | reflexivity |].
  rewrite Hfinal, ticks_inactive by exact Hoff.
  repeat split.
  - exact Hz.
  - rewrite Hc. simpl. rewrite Hco. reflexivity.
  - rewrite Hcount by assumption. simpl. exact Hco.
  - rewrite Hcount by assumption. reflexivity.
Qed.

(** The page of a first visit, the tick signal once a second for the 25
    minutes of a focus interval. *)
Lemma start_then_ticks_witness :
  exists h,
    timerInterval (TimerController.start freshPage) = Some h /\
    timeRemaining
      (ticks h (map (fun i => 1000 * Z.of_nat i) (seq 1 1500))
         (TimerController.start freshPage)) = 0 /\
    completions
      (ticks h (map (fun i => 1000 * Z.of_nat i) (seq 1 1500))
         (TimerController.start freshPage)) = [false].
Proof.
  destruct (start_then_ticks_completes_once freshPage
              (map (fun i => 1000 * Z.of_nat i) (seq 1 1500)))
    as (h & Hh & Hz & Hc & _).
  - intros Hrun. vm_compute in Hrun. discriminate.
  - vm_compute. split; [reflexivity | discriminate].
  - vm_compute. reflexivity.
  - exists h. split; [exact Hh|]. split; [exact Hz|].
    rewrite Hc. reflexivity.
Defined.

(* ================================================================= *)
(** ** The tick source (C6) *)

(** Splits on the handle and reads the invariant off. *)
Ltac use_inv H :=
  unfold tickSourceInv in H; simpl in H;
  match type of H with
  | match ?ticker with _ => _ end =>
      destruct ticker; destruct H as [? ?]; subst
  end.

Lemma quiet_inv (w : World) : quiet w -> tickSourceInv w.
Proof. unfold quiet, tickSourceInv. intros (-> & -> & ->). auto. Qed.

Lemma setMode_quiet (m : Mode) (w : World) :
  tickSourceInv w -> quiet (TimerController.setMode m w).
Proof.
  intros H. open_world w. use_inv H; eval_world; simpl;
    rewrite ?Pos.eqb_refl; simpl; auto.
Qed.

Lemma pause_quiet (w : World) :
  tickSourceInv w -> quiet (TimerController.pause w).
Proof.
  intros H. open_world w. use_inv H; eval_world; simpl;
    rewrite ?Pos.eqb_refl; simpl; auto.
Qed.

Lemma reset_quiet (w : World) :
  tickSourceInv w -> quiet (TimerController.reset w).
Proof.
  intros H. open_world w. use_inv H; eval_world; simpl;
    rewrite ?Pos.eqb_refl; simpl; auto.
Qed.

Lemma complete_quiet (now : Z) (skipped : bool) (w : World) :
  tickSourceInv w -> quiet (TimerController.complete now skipped w).
Proof.
  intros H. open_world w.
  use_inv H; destruct sound, mode, skipped, avail; eval_world; simpl;
    rewrite ?Pos.eqb_refl; simpl; auto.
Qed.

Lemma start_inv (w : World) :
  tickSourceInv w -> tickSourceInv (TimerController.start w).
Proof.
  intros H. open_world w. use_inv H; eval_world; auto.
Qed.

Lemma tick_inv (now : Z) (w : World) :
  tickSourceInv w -> tickSourceInv (TimerController.tick now w).
Proof.
  intros H. unfold TimerController.tick. cbv zeta.
  destruct (_ <=? 0).
  - apply quiet_inv, complete_quiet. open_world w. exact H.
  - open_world w. exact H.
Qed.

Lemma handle_inv (e : Event) (w : World) :
  tickSourceInv w -> tickSourceInv (handle e w).
Proof.
  intros H. destruct e; simpl.
  - unfold TimerController.toggle. destruct (isRunning w).
    + apply quiet_inv, pause_quiet, H.
    + apply start_inv, H.
  - apply quiet_inv, reset_quiet, H.
  - unfold TimerController.skip.
    apply quiet_inv, complete_quiet, quiet_inv, pause_quiet, H.
  - apply quiet_inv, setMode_quiet, H.
  - unfold UIController.saveSettings. cbv zeta.
    apply quiet_inv, setMode_quiet. unfold StorageManager.saveSettings.
    open_world w. destruct avail; exact H.
  - open_world w. exact H.
  - destruct (Browser.active h w); [apply tick_inv, H | exact H].
  - destruct (timeouts w) eqn:Hq; [exact H|].
    apply quiet_inv, setMode_quiet. open_world w. exact H.
Qed.

Lemma boot_inv (tz : Z) (avail : bool) (saved : option StoredSettings)
    (history : option (list Session)) :
  tickSourceInv (boot tz avail saved history).
Proof. apply quiet_inv. unfold quiet. repeat split. Qed.

Lemma run_inv (es : list Event) :
  forall w, tickSourceInv w -> tickSourceInv (run es w).
Proof.
  induction es as [|e es IH]; intros w H; [exact H|].
  simpl. apply IH, handle_inv, H.
Qed.

(** Every state the page can reach meets the condition the countdown
    theorem asks of the tick source. *)
Lemma reachable_live (tz : Z) (avail : bool) (saved : option StoredSettings)
    (history : option (list Session)) (es : list Event) :
  tickSourceLive (run es (boot tz avail saved history)).
Proof.
  pose proof (run_inv es _ (boot_inv tz avail saved history)) as H.
  unfold tickSourceInv, tickSourceLive, Browser.active in *.
  destruct (timerInterval (run es (boot tz avail saved history))) as [h|].
  - destruct H as [_ ->]. intros _. exists h. simpl.
    rewrite Pos.eqb_refl. auto.
  - destruct H as [-> _]. discriminate.
Qed.

(** C6: in every state the page can reach (any stored data, any sequence of
    clicks, ticks and elapsed delays) at most one tick source is active, and
    after [setMode], [pause] or [reset] none is: neither a handle in
    [AppState] nor an interval left running in the browser, whether or not
    the timer was running when the call was made. *)
Theorem tick_source_cancelled (tz : Z) (avail : bool)
    (saved : option StoredSettings) (history : option (list Session))
    (es : list Event) :
  (List.length (intervals (run es (boot tz avail saved history))) <= 1)%nat /\
  (forall m, quiet (TimerController.setMode m (run es (boot tz avail saved history)))) /\
  quiet (TimerController.pause (run es (boot tz avail saved history))) /\
  quiet (TimerController.reset (run es (boot tz avail saved history))).
Proof.
  pose proof (run_inv es _ (boot_inv tz avail saved history)) as H.
  set (w := run es _) in *.
  repeat split; try (apply setMode_quiet, H); try (apply pause_quiet, H);
    try (apply reset_quiet, H).
  unfold tickSourceInv in H.
  destruct (timerInterval w); destruct H as [_ ->]; simpl; lia.
Qed.

(* ================================================================= *)
(** ** The session store (C10) *)

Lemma filter_Subseq {A : Type} (p : A -> bool) (l : list A) :
  Subseq (filter p l) l.
Proof.
  induction l as [|x l IH]; simpl; [constructor|].
  destruct (p x); constructor; exact IH.
Qed.

Lemma kept_not_older (now : Z) (x : Session) :
  (StorageManager.cutoff now <=? JsDate.parse (date x)) = true <->
  ~ olderThan90Days now x.
Proof.
  unfold olderThan90Days, StorageManager.cutoff, JsDate.addDays.
  rewrite Z.leb_le. lia.
Qed.

(** C10: [addSession] puts the session at the end of the stored sequence,
    drops every entry (old or new) whose day began before [now] minus 90
    days and no other, keeps the rest in the order they had, stores the
    result and returns it.  A session dated 91 days before today, on the UTC
    calendar or on the local one, is therefore gone. *)
Theorem addSession_appends_and_prunes (now : Z) (s : Session) (w : World) :
  storageAvailable w = true ->
  let old := StorageManager.loadSessions w in
  let result := fst (StorageManager.addSession now s w) in
  let w' := snd (StorageManager.addSession now s w) in
  item_sessions w' = Some result /\
  StorageManager.loadSessions w' = result /\
  (forall x, In x result <-> In x (old ++ [s]) /\ ~ olderThan90Days now x) /\
  Subseq result (old ++ [s]) /\
  (~ olderThan90Days now s ->
   exists kept, result = kept ++ [s] /\ Subseq kept old) /\
  (forall x, date x = JsDate.toISODate now - 91 -> ~ In x result) /\
  (tzOffset w < 1440 ->
   forall x, date x = JsDate.localDate (tzOffset w) now - 91 -> ~ In x result).
Proof.
  intros Ha old result w'.
  assert (Hres : result =
                 filter (fun x => StorageManager.cutoff now <=? JsDate.parse (date x))
                   (old ++ [s])) by reflexivity.
  assert (Hin : forall x, In x result <->
                          In x (old ++ [s]) /\ ~ olderThan90Days now x).
  { intros x. rewrite Hres, filter_In, kept_not_older. reflexivity. }
  split; [|split; [|split; [|split; [|split; [|split]]]]].
  - unfold w', result, StorageManager.addSession, StorageManager.saveSessions.
    simpl. rewrite Ha. reflexivity.
  - unfold w', result, StorageManager.addSession, StorageManager.saveSessions,
      StorageManager.loadSessions, StorageManager.load.
    simpl. rewrite Ha. simpl. rewrite Ha. reflexivity.
  - exact Hin.
  - rewrite Hres. apply filter_Subseq.
  - intros Hfresh. rewrite Hres, filter_app. simpl.
    apply kept_not_older in Hfresh. rewrite Hfresh.
    eexists. split; [reflexivity|]. apply filter_Subseq.
  - intros x Hd Hx. apply Hin in Hx. destruct Hx as [_ Hx]. apply Hx.
    unfold olderThan90Days, JsDate.parse, JsDate.toISODate, JsDate.MS_PER_DAY in *.
    Z.div_mod_to_equations. lia.
  - intros Htz x Hd Hx. apply Hin in Hx. destruct Hx as [_ Hx]. apply Hx.
    unfold olderThan90Days, JsDate.parse, JsDate.localDate, JsDate.localTime,
      JsDate.MS_PER_DAY, JsDate.MS_PER_MINUTE in *.
    Z.div_mod_to_equations. lia.
Qed.

(** 11 April 2024, noon UTC: the store holds a session of 11 January (91
    days back) and one of 10 April; a session of the day is appended. *)
Lemma addSession_witness :
  fst (StorageManager.addSession (19824 * 86400000 + 43200000)
         (mkSession 19824 12 25 "pomodoro" (19824 * 86400000 + 43200000))
         (boot 0 true None
            (Some [mkSession 19733 9 25 "pomodoro" 0;
                   mkSession 19823 9 25 "pomodoro" 0])))
  = [mkSession 19823 9 25 "pomodoro" 0;
     mkSession 19824 12 25 "pomodoro" (19824 * 86400000 + 43200000)]
  /\ ~ In (mkSession 19733 9 25 "pomodoro" 0)
       (fst (StorageManager.addSession (19824 * 86400000 + 43200000)
         (mkSession 19824 12 25 "pomodoro" (19824 * 86400000 + 43200000))
         (boot 0 true None
            (Some [mkSession 19733 9 25 "pomodoro" 0;
                   mkSession 19823 9 25 "pomodoro" 0])))).
Proof.
  split; [vm_compute; reflexivity|].
  destruct (addSession_appends_and_prunes (19824 * 86400000 + 43200000)
           (mkSession 19824 12 25 "pomodoro" (19824 * 86400000 + 43200000))
           (boot 0 true None
              (Some [mkSession 19733 9 25 "pomodoro" 0;
                     mkSession 19823 9 25 "pomodoro" 0])) eq_refl)
    as (_ & _ & _ & _ & _ & Hgone & _).
  apply Hgone. vm_compute. reflexivity.
Defined.

(* ================================================================= *)
(** ** Saving the settings (C8) *)

Lemma clamp_range (lo hi x : Z) :
  lo <= hi -> lo <= UIController.clamp lo hi x <= hi.
Proof. unfold UIController.clamp. lia. Qed.

Lemma clamp_id (lo hi x : Z) :
  lo <= x <= hi -> UIController.clamp lo hi x = x.
Proof. unfold UIController.clamp. lia. Qed.

Lemma newSettings_durations (f : Form) :
  durationsInRange (UIController.newSettings f).
Proof.
  unfold durationsInRange, UIController.newSettings. simpl.
  repeat split; apply clamp_range; lia.
Qed.

Lemma saveSettings_settings (f : Form) (w : World) :
  settings (UIController.saveSettings f w) = UIController.newSettings f.
Proof.
  open_world w. destruct avail, ticker, mode; reflexivity.
Qed.

Lemma saveSettings_item (f : Form) (w : World) :
  item_settings (UIController.saveSettings f w) =
  if storageAvailable w
  then Some (StorageManager.stringify (UIController.newSettings f))
  else item_settings w.
Proof.
  open_world w. destruct avail, ticker, mode; reflexivity.
Qed.

(** C8, as the code has it: [saveSettings] stores, and keeps in
    [AppState], the three durations and the long-break interval clamped to
    [1,90], [1,30], [1,60] and [2,8]; nothing else reaches the store.  The
    volume is not clamped: it is stored as read from the slider, 50 taking
    the place of 0 and of an unreadable value, so that it lies within 0-100
    whenever the slider's value does. *)
Theorem saveSettings_clamps_durations (f : Form) (w : World) :
  settings (UIController.saveSettings f w) = UIController.newSettings f /\
  item_settings (UIController.saveSettings f w) =
    (if storageAvailable w
     then Some (StorageManager.stringify (UIController.newSettings f))
     else item_settings w) /\
  durationsInRange (UIController.newSettings f) /\
  soundVolume (UIController.newSettings f) =
    UIController.orDefault (in_soundVolume f) 50 /\
  ((forall v, in_soundVolume f = Some v -> 0 <= v <= 100) ->
   volumeInRange (UIController.newSettings f)).
Proof.
  split; [apply saveSettings_settings|].
  split; [apply saveSettings_item|].
  split; [apply newSettings_durations|].
  split; [reflexivity|].
  intros Hslider. unfold volumeInRange. simpl.
  destruct (in_soundVolume f) as [v|]; simpl; [|lia].
  specialize (Hslider v eq_refl). destruct v; simpl; lia.
Qed.

(** An interval of 0, a focus time of 500 minutes, a break of -3 minutes
    and the slider at 80. *)
Lemma saveSettings_clamps_witness :
  item_settings
    (UIController.saveSettings
       (mkForm (Some 500) (Some (-3)) None (Some 0) false (Some 80)) freshPage)
  = Some (mkStored (Some 90) (Some 1) (Some 15) (Some 4) (Some false) (Some 80))
  /\ volumeInRange
       (UIController.newSettings
          (mkForm (Some 500) (Some (-3)) None (Some 0) false (Some 80))).
Proof.
  destruct (saveSettings_clamps_durations
              (mkForm (Some 500) (Some (-3)) None (Some 0) false (Some 80))
              freshPage) as (_ & Hitem & _ & _ & Hvol).
  split; [exact Hitem|].
  apply Hvol. simpl. intros v Hv. injection Hv as <-. lia.
Defined.

(** C8 as stated fails for the volume: a value of 500 in the volume control
    is stored as 500. *)
Lemma saveSettings_stores_volume_500 :
  item_settings
    (UIController.saveSettings
       (mkForm (Some 25) (Some 5) (Some 15) (Some 4) true (Some 500)) freshPage)
  = Some (mkStored (Some 25) (Some 5) (Some 15) (Some 4) (Some true) (Some 500))
  /\ ~ volumeInRange
       (settings
          (UIController.saveSettings
             (mkForm (Some 25) (Some 5) (Some 15) (Some 4) true (Some 500))
             freshPage)).
Proof.
  split; [reflexivity|]. unfold volumeInRange. simpl. lia.
Qed.

(* ================================================================= *)
(** ** Saving and loading the settings (C9) *)

(** What is written to the store is read back as it was. *)
Lemma storage_roundtrip (s : Settings) (w : World) :
  storageAvailable w = true ->
  StorageManager.loadSettings (StorageManager.saveSettings s w) = s.
Proof.
  intros Ha. unfold StorageManager.loadSettings, StorageManager.saveSettings.
  rewrite Ha. simpl. rewrite Ha. destruct s; reflexivity.
Qed.

Lemma orDefault_nonzero (n d : Z) :
  n <> 0 -> UIController.orDefault (Some n) d = n.
Proof. destruct n; simpl; congruence. Qed.

(** X23.  Settings within their ranges come back from [saveSettings] and
    [loadSettings] as they were, as long as the volume is not 0. *)
Lemma save_load_nonzero_volume (s : Settings) (w : World) :
  storageAvailable w = true ->
  durationsInRange s -> soundVolume s <> 0 ->
  StorageManager.loadSettings
    (UIController.saveSettings (UIController.populateSettingsForm s) w) = s.
Proof.
  intros Ha (Hp & Hs & Hl & Hi) Hv.
  assert (Hnew : UIController.newSettings (UIController.populateSettingsForm s) = s).
  { destruct s as [p sh l i e v]. simpl in Hp, Hs, Hl, Hi, Hv.
    unfold UIController.newSettings, UIController.populateSettingsForm.
    cbv [in_pomodoroMinutes in_shortBreakMinutes in_longBreakMinutes
         in_longBreakInterval in_soundEnabled in_soundVolume
         pomodoroMinutes shortBreakMinutes longBreakMinutes longBreakInterval
         soundEnabled soundVolume].
    rewrite !orDefault_nonzero by lia. rewrite !clamp_id by lia. reflexivity. }
  unfold StorageManager.loadSettings.
  rewrite saveSettings_item, saveSettings_settings, Hnew.
  assert (Ha' : storageAvailable
                  (UIController.saveSettings
                     (UIController.populateSettingsForm s) w) = true).
  { open_world w. simpl in Ha. subst. destruct ticker, mode; reflexivity. }
  rewrite Ha', Ha. destruct s; reflexivity.
Qed.

(** C9 fails on the code for a muted volume: the default settings with
    [soundVolume = 0] are within their ranges, and saving them from the
    dialog and loading them again gives [soundVolume = 50]. *)
Theorem save_load_loses_volume_0 :
  durationsInRange (mkSettings 25 5 15 4 true 0) /\
  volumeInRange (mkSettings 25 5 15 4 true 0) /\
  StorageManager.loadSettings
    (UIController.saveSettings
       (UIController.populateSettingsForm (mkSettings 25 5 15 4 true 0))
       freshPage)
  = mkSettings 25 5 15 4 true 50.
Proof.
  unfold durationsInRange, volumeInRange. simpl.
  split; [lia|]. split; [lia|]. reflexivity.
Qed.

(* ================================================================= *)
(** ** The recorded session (C7) *)

(** The hour [getHours] reads is the hour of the local wall clock. *)
Lemma getHours_local (tz t : Z) :
  0 <= JsDate.getHours tz t < 24 /\
  JsDate.getHours tz t =
    (JsDate.localTime tz t - JsDate.localDate tz t * JsDate.MS_PER_DAY)
      / JsDate.MS_PER_HOUR.
Proof.
  unfold JsDate.getHours, JsDate.localDate, JsDate.MS_PER_DAY,
    JsDate.MS_PER_HOUR.
  generalize (JsDate.localTime tz t). intros x.
  Z.div_mod_to_equations. lia.
Qed.

(** The day [toISOString] prints is the local day exactly when the UTC time
    of day, moved by the zone offset, stays within the same day. *)
Lemma toISODate_local_iff (tz t : Z) :
  JsDate.toISODate t = JsDate.localDate tz t <->
  0 <= t mod JsDate.MS_PER_DAY + tz * JsDate.MS_PER_MINUTE < JsDate.MS_PER_DAY.
Proof.
  unfold JsDate.toISODate, JsDate.localDate, JsDate.localTime,
    JsDate.MS_PER_DAY, JsDate.MS_PER_MINUTE.
  split; intros H; Z.div_mod_to_equations; lia.
Qed.

(** A focus completion that is not skipped puts one session at the end of
    the list: its day is the UTC day of the instant, its hour the local
    hour. *)
Lemma complete_records_session (now : Z) (w : World) :
  currentMode w = pomodoro ->
  exists kept,
    sessions (TimerController.complete now false w) =
    kept ++ [mkSession (JsDate.toISODate now) (JsDate.getHours (tzOffset w) now)
               (pomodoroMinutes (settings w)) "pomodoro" now] /\
    Subseq kept (StorageManager.loadSessions w).
Proof.
  intros Hm.
  assert (Hfresh : (StorageManager.cutoff now <=?
                    JsDate.parse (JsDate.toISODate now)) = true).
  { unfold StorageManager.cutoff, JsDate.addDays, JsDate.parse,
      JsDate.toISODate, JsDate.MS_PER_DAY.
    apply Z.leb_le. Z.div_mod_to_equations. lia. }
  exists (filter (fun s => StorageManager.cutoff now <=? JsDate.parse (date s))
            (StorageManager.loadSessions w)).
  split; [|apply filter_Subseq].
  open_world w. simpl in Hm. subst.
  destruct running, ticker, sound, avail; eval_world;
    rewrite filter_app; simpl; cbv [date]; rewrite Hfresh; reflexivity.
Qed.

(** C7 fails on the code for the date.  One hour east of UTC, a focus
    interval completed at half past midnight of 2 January 2024 (23:30 UTC
    of 1 January, after the 25 minutes of the default focus time) is
    recorded with the local hour 0 and the date 2024-01-01, while the local
    calendar date is 2024-01-02. *)
Theorem session_date_is_utc_day :
  sessions (run (focusIntervalEndingAt 1500 jan1_2330Z) pageEastOfUTC) =
    [mkSession jan1 0 25 "pomodoro" jan1_2330Z] /\
  JsDate.isoDate jan1 = "2024-01-01"%string /\
  JsDate.localDate 60 jan1_2330Z = jan2 /\
  JsDate.isoDate jan2 = "2024-01-02"%string /\
  JsDate.getHours 60 jan1_2330Z = 0.
Proof. by_evaluation. Qed.

(* ================================================================= *)
(** ** The streak (C4) *)

Lemma toISODate_addDays (t n : Z) :
  JsDate.toISODate (JsDate.addDays t n) = JsDate.toISODate t + n.
Proof.
  unfold JsDate.toISODate, JsDate.addDays, JsDate.MS_PER_DAY.
  Z.div_mod_to_equations. lia.
Qed.

(** The day [toISOString] prints for local midnight: the local day at UTC
    and west of it, the day before east of it. *)
Lemma startOfDay_day_west (tz t : Z) :
  -1440 < tz <= 0 ->
  JsDate.toISODate (JsDate.startOfDay tz t) = JsDate.localDate tz t.
Proof.
  unfold JsDate.toISODate, JsDate.startOfDay, JsDate.localDate,
    JsDate.localTime, JsDate.MS_PER_DAY, JsDate.MS_PER_MINUTE.
  intros H. Z.div_mod_to_equations. lia.
Qed.

Lemma startOfDay_day_east (tz t : Z) :
  0 < tz < 1440 ->
  JsDate.toISODate (JsDate.startOfDay tz t) = JsDate.localDate tz t - 1.
Proof.
  unfold JsDate.toISODate, JsDate.startOfDay, JsDate.localDate,
    JsDate.localTime, JsDate.MS_PER_DAY, JsDate.MS_PER_MINUTE.
  intros H. Z.div_mod_to_equations. lia.
Qed.

(** Sessions dated [d] or earlier. *)
Lemma upto_shrinks (l : list Session) (d : Z) :
  UIController.hasSessions l d = true ->
  (List.length (filter (fun s => (date s <=? d - 1)%Z) l)
   < List.length (filter (fun s => (date s <=? d)%Z) l))%nat.
Proof.
  assert (Hle : forall l,
             (List.length (filter (fun s => (date s <=? d - 1)%Z) l)
              <= List.length (filter (fun s => (date s <=? d)%Z) l))%nat).
  { clear. induction l as [|s l IH]; simpl; [lia|].
    destruct (Z.leb_spec (date s) (d - 1)), (Z.leb_spec (date s) d);
      simpl; lia. }
  unfold UIController.hasSessions.
  induction l as [|s l IH]; simpl; [discriminate|].
  intros H. apply orb_true_iff in H. destruct H as [H|H].
  - apply andb_true_iff in H. destruct H as [H _]. apply Z.eqb_eq in H.
    specialize (Hle l).
    destruct (Z.leb_spec (date s) (d - 1)), (Z.leb_spec (date s) d);
      simpl; lia.
  - specialize (IH H).
    destruct (Z.leb_spec (date s) (d - 1)), (Z.leb_spec (date s) d);
      simpl; lia.
Qed.

(** Past the first day the loop ends within as many iterations as there
    are sessions dated that day or earlier, and one more. *)
Lemma streakLoop_returns (l : list Session) (today : Z) (fuel : nat) :
  forall check streak,
    JsDate.toISODate check < JsDate.toISODate today ->
    (List.length (filter (fun s => (date s <=? JsDate.toISODate check)%Z) l)
     < fuel)%nat ->
    exists n, UIController.streakLoop fuel l today check streak = Some n.
Proof.
  induction fuel as [|fuel IH]; intros check streak Hpast Hfuel; [lia|].
  simpl.
  destruct (UIController.hasSessions l (JsDate.toISODate check)) eqn:Hhas.
  - apply IH.
    + rewrite toISODate_addDays. lia.
    + rewrite toISODate_addDays. apply upto_shrinks in Hhas.
      replace (JsDate.toISODate check + -1) with (JsDate.toISODate check - 1)
        by lia.
      lia.
  - destruct (Z.eqb_spec (JsDate.toISODate check) (JsDate.toISODate today));
      [lia|eauto].
Qed.

(** What the loop counts: from the day of [check] backward, the days that
    have a session, up to the first that has none. *)
Lemma streakLoop_counts (l : list Session) (today : Z) (fuel : nat) :
  forall check streak n,
    JsDate.toISODate check < JsDate.toISODate today ->
    UIController.streakLoop fuel l today check streak = Some n ->
    streak <= n /\
    (forall i, 0 <= i < n - streak ->
       UIController.hasSessions l (JsDate.toISODate check - i) = true) /\
    UIController.hasSessions l (JsDate.toISODate check - (n - streak)) = false.
Proof.
  induction fuel as [|fuel IH]; intros check streak n Hpast Hrun;
    [discriminate|].
  simpl in Hrun.
  destruct (UIController.hasSessions l (JsDate.toISODate check)) eqn:Hhas.
  - apply IH in Hrun; [|rewrite toISODate_addDays; lia].
    rewrite toISODate_addDays in Hrun. destruct Hrun as (Hle & Hdays & Hstop).
    split; [lia|]. split.
    + intros i Hi. destruct (Z.eq_dec i 0) as [->|Hne].
      * rewrite Z.sub_0_r. exact Hhas.
      * replace (JsDate.toISODate check - i)
          with (JsDate.toISODate check + -1 - (i - 1)) by lia.
        apply Hdays. lia.
    + replace (JsDate.toISODate check - (n - streak))
        with (JsDate.toISODate check + -1 - (n - (streak + 1))) by lia.
      exact Hstop.
  - destruct (Z.eqb_spec (JsDate.toISODate check) (JsDate.toISODate today));
      [lia|].
    injection Hrun as <-. split; [lia|]. split; [intros i Hi; lia|].
    rewrite Z.sub_diag, Z.sub_0_r. exact Hhas.
Qed.

(** [calculateStreak] returns, and returns the number of consecutive days
    with a session counted backward from the day [toISOString] prints for
    local midnight, or from the day before when that day has none. *)
Lemma calculateStreak_counts (now : Z) (w : World) :
  exists n,
    UIController.calculateStreak now w = Some n /\ 0 <= n /\
    let today := JsDate.toISODate (JsDate.startOfDay (tzOffset w) now) in
    let first :=
      if UIController.hasSessions (sessions w) today then today else today - 1 in
    (forall i, 0 <= i < n ->
       UIController.hasSessions (sessions w) (first - i) = true) /\
    UIController.hasSessions (sessions w) (first - n) = false.
Proof.
  unfold UIController.calculateStreak.
  set (t := JsDate.startOfDay (tzOffset w) now).
  set (l := sessions w).
  assert (Hall : forall d,
             (List.length (filter (fun s => (date s <=? d)%Z) l)
              <= List.length l)%nat) by (intros d; apply filter_length_le).
  assert (Hpast : JsDate.toISODate (JsDate.addDays t (-1)) < JsDate.toISODate t)
    by (rewrite toISODate_addDays; lia).
  simpl UIController.streakLoop. rewrite Z.eqb_refl.
  destruct (UIController.hasSessions l (JsDate.toISODate t)) eqn:Hhas.
  - destruct (streakLoop_returns l t (S (List.length l))
                (JsDate.addDays t (-1)) (0 + 1) Hpast) as (n & Hn).
    { rewrite toISODate_addDays. apply upto_shrinks in Hhas.
      specialize (Hall (JsDate.toISODate t)).
      replace (JsDate.toISODate t + -1) with (JsDate.toISODate t - 1) by lia.
      lia. }
    exists n. split; [exact Hn|].
    apply streakLoop_counts in Hn; [|exact Hpast].
    rewrite toISODate_addDays in Hn. destruct Hn as (Hle & Hdays & Hstop).
    split; [lia|]. cbv zeta. split.
    + intros i Hi. destruct (Z.eq_dec i 0) as [->|Hne].
      * rewrite Z.sub_0_r. exact Hhas.
      * replace (JsDate.toISODate t - i)
          with (JsDate.toISODate t + -1 - (i - 1)) by lia.
        apply Hdays. lia.
    + replace (JsDate.toISODate t - n)
        with (JsDate.toISODate t + -1 - (n - (0 + 1))) by lia.
      exact Hstop.
  - destruct (streakLoop_returns l t (S (List.length l))
                (JsDate.addDays t (-1)) 0 Hpast) as (n & Hn).
    { specialize (Hall (JsDate.toISODate (JsDate.addDays t (-1)))). lia. }
    exists n. split; [exact Hn|].
    apply streakLoop_counts in Hn; [|exact Hpast].
    rewrite toISODate_addDays in Hn. destruct Hn as (Hle & Hdays & Hstop).
    split; [lia|]. cbv zeta. split.
    + intros i Hi.
      replace (JsDate.toISODate t - 1 - i)
        with (JsDate.toISODate t + -1 - i) by lia.
      apply Hdays. lia.
    + replace (JsDate.toISODate t - 1 - n)
        with (JsDate.toISODate t + -1 - (n - 0)) by lia.
      exact Hstop.
Qed.

(** At UTC and west of it the walk starts from the local day: there
    [calculateStreak] is the number of consecutive local days with a
    session, counted backward from today, or from yesterday when today has
    none. *)
Lemma calculateStreak_west (now : Z) (w : World) :
  -1440 < tzOffset w <= 0 ->
  exists n,
    UIController.calculateStreak now w = Some n /\ 0 <= n /\
    let today := JsDate.localDate (tzOffset w) now in
    let first :=
      if UIController.hasSessions (sessions w) today then today else today - 1 in
    (forall i, 0 <= i < n ->
       UIController.hasSessions (sessions w) (first - i) = true) /\
    UIController.hasSessions (sessions w) (first - n) = false.
Proof.
  intros Htz. rewrite <- (startOfDay_day_west _ now Htz).
  apply calculateStreak_counts.
Qed.

(** On a page whose clock is on UTC the three examples of C4 come out as
    stated: sessions of 1 and 2 January give 2 at 11:00 of 2 January, a
    single session of 1 January gives 1 at that time, and an empty store
    gives 0. *)
Lemma streak_at_utc :
  UIController.calculateStreak jan2_1100Z
    (run twoMorningsOfFocus (boot 0 true (focusOf 1) None)) = Some 2 /\
  UIController.calculateStreak jan2_1100Z
    (run (focusIntervalEndingAt 1500 jan1_0900Z) freshPage) = Some 1 /\
  UIController.calculateStreak jan2_1100Z freshPage = Some 0.
Proof. by_evaluation. Qed.

(** C4 fails on the code east of UTC.  One hour east, with a focus interval
    completed at ten in the morning of 1 January and of 2 January and none
    before, the streak at noon of 2 January is 1: the loop starts from
    2024-01-01, the day [toISOString] prints for local midnight of
    2 January, and never looks at the sessions dated 2024-01-02. *)
Theorem streak_misses_today_east_of_utc :
  sessions (run twoMorningsOfFocus (boot 60 true (focusOf 1) None)) =
    [mkSession jan1 10 1 "pomodoro" jan1_0900Z;
     mkSession jan2 10 1 "pomodoro" jan2_0900Z] /\
  JsDate.localDate 60 jan2_1100Z = jan2 /\
  JsDate.toISODate (JsDate.startOfDay 60 jan2_1100Z) = jan1 /\
  UIController.calculateStreak jan2_1100Z
    (run twoMorningsOfFocus (boot 60 true (focusOf 1) None)) = Some 1.
Proof. by_evaluation. Qed.

(* ================================================================= *)
(** ** The period statistics (C5) *)

Lemma startDate_shift (tz now k : Z) :
  JsDate.startOfDay tz (JsDate.addDays (JsDate.endOfDay tz now) k) =
  JsDate.addDays (JsDate.startOfDay tz now) k.
Proof.
  unfold JsDate.endOfDay, JsDate.startOfDay, JsDate.addDays, JsDate.localTime,
    JsDate.MS_PER_DAY, JsDate.MS_PER_MINUTE.
  Z.div_mod_to_equations. lia.
Qed.

Lemma addAt_length (arr : list (option Z)) (d : Z) :
  forall i, (i < List.length arr)%nat ->
            List.length (UIController.addAt arr i d) = List.length arr.
Proof.
  induction arr as [|x arr IH]; intros i Hi; simpl in *; [lia|].
  destruct i as [|i]; simpl; [reflexivity|].
  rewrite IH by lia. reflexivity.
Qed.

Lemma hourly_length (l : list Session) :
  (forall s, In s l -> 0 <= hour s < 24) ->
  forall arr, List.length arr = 24%nat ->
    List.length
      (fold_left (fun arr s => UIController.arrayAdd arr (hour s) (duration s))
         l arr) = 24%nat.
Proof.
  induction l as [|s l IH]; intros Hh arr Harr; simpl; [exact Harr|].
  apply IH; [intros x Hx; apply Hh; right; exact Hx|].
  unfold UIController.arrayAdd.
  pose proof (Hh s (or_introl eq_refl)) as Hs.
  destruct (Z.ltb_spec (hour s) 0); [lia|].
  rewrite addAt_length; [exact Harr|lia].
Qed.


Lemma sumDuration_from (l : list Session) (a : Z) :
  fold_left (fun sum s => sum + duration s) l a = a + UIController.sumDuration l.
Proof.
  unfold UIController.sumDuration. revert a.
  induction l as [|s l IH]; intros a; simpl; [lia|].
  rewrite IH, (IH (duration s)). lia.
Qed.

Lemma addAt_same (arr : list (option Z)) (d : Z) :
  forall i v, nth_error arr i = Some (Some v) ->
              nth_error (UIController.addAt arr i d) i = Some (Some (v + d)).
Proof.
  induction arr as [|x arr IH]; intros [|i] v H; simpl in *;
    try discriminate.
  - injection H as ->. reflexivity.
  - apply IH, H.
Qed.

Lemma addAt_other (arr : list (option Z)) (d : Z) :
  forall i j, (i < List.length arr)%nat -> i <> j ->
              nth_error (UIController.addAt arr i d) j = nth_error arr j.
Proof.
  induction arr as [|x arr IH]; intros [|i] [|j] Hi Hne; simpl in *;
    try lia; try reflexivity.
  apply IH; lia.
Qed.

Lemma hourly_totals (l : list Session) :
  (forall s, In s l -> 0 <= hour s < 24) ->
  forall arr (h : nat) v,
    List.length arr = 24%nat ->
    nth_error arr h = Some (Some v) ->
    nth_error
      (fold_left (fun arr s => UIController.arrayAdd arr (hour s) (duration s))
         l arr) h
    = Some (Some (v + UIController.sumDuration
                         (filter (fun s => hour s =? Z.of_nat h) l))).
Proof.
  induction l as [|s l IH]; intros Hh arr h v Harr Hv; simpl.
  - rewrite Hv. unfold UIController.sumDuration. simpl. do 2 f_equal. lia.
  - pose proof (Hh s (or_introl eq_refl)) as Hs.
    assert (Hadd : UIController.arrayAdd arr (hour s) (duration s) =
                   UIController.addAt arr (Z.to_nat (hour s)) (duration s)).
    { unfold UIController.arrayAdd.
      destruct (Z.ltb_spec (hour s) 0); [lia|reflexivity]. }
    rewrite Hadd.
    assert (Hlen : List.length
                     (UIController.addAt arr (Z.to_nat (hour s)) (duration s))
                   = 24%nat) by (rewrite addAt_length; lia).
    destruct (Z.eqb_spec (hour s) (Z.of_nat h)) as [Heq|Hne].
    + rewrite (IH (fun x Hx => Hh x (or_intror Hx)) _ h (v + duration s) Hlen).
      * unfold UIController.sumDuration at 2. simpl.
        rewrite sumDuration_from. do 2 f_equal. lia.
      * replace (Z.to_nat (hour s)) with h by lia. apply addAt_same, Hv.
    + apply (IH (fun x Hx => Hh x (or_intror Hx)) _ h v Hlen).
      rewrite addAt_other; [exact Hv | lia | lia].
Qed.

Lemma filter_filter {A : Type} (p q : A -> bool) (l : list A) :
  filter q (filter p l) = filter (fun x => p x && q x) l.
Proof.
  induction l as [|x l IH]; simpl; [reflexivity|].
  destruct (p x); simpl; [destruct (q x)|]; rewrite IH; reflexivity.
Qed.

(** The totals of the statistics: the sessions counted are the focus
    sessions of the window, and slot [h] of the hourly series holds the
    minutes of those completed in hour [h]. *)
Lemma periodStats_totals (now days : Z) (w : World) :
  UIController.totalPomodoros (UIController.calculatePeriodStats now days w)
    = Z.of_nat (List.length (filter (inPeriod (tzOffset w) now days) (sessions w))) /\
  UIController.totalMinutes (UIController.calculatePeriodStats now days w)
    = UIController.sumDuration (filter (inPeriod (tzOffset w) now days) (sessions w)) /\
  ((forall s, In s (sessions w) -> 0 <= hour s < 24) ->
   forall h : nat, (h < 24)%nat ->
     nth_error
       (UIController.hourlyData (UIController.calculatePeriodStats now days w)) h
     = Some (Some (UIController.sumDuration
                     (filter (fun s => inPeriod (tzOffset w) now days s
                                       && (hour s =? Z.of_nat h))
                        (sessions w))))).
Proof.
  unfold UIController.calculatePeriodStats. cbv zeta.
  cbn [UIController.totalPomodoros UIController.totalMinutes
       UIController.hourlyData].
  rewrite startDate_shift. fold (inPeriod (tzOffset w) now days).
  split; [reflexivity|]. split; [reflexivity|].
  intros Hh h Hlt.
  rewrite <- filter_filter.
  rewrite (hourly_totals _ (fun s Hs => Hh s (proj1 (proj1 (filter_In _ _ _) Hs)))
             (repeat (Some 0) 24) h 0 eq_refl).
  - reflexivity.
  - do 24 (destruct h as [|h]; [reflexivity|]). lia.
Qed.

(** On a page whose clock is on UTC the example of C5 comes out as stated:
    after one 30-minute focus interval ending at 14:30 the week's
    statistics at 15:00 are seven entries, the last one for today with 30
    minutes and one session, and 30 minutes in the slot of hour 14. *)
Lemma periodStats_at_utc :
  sessions (run (focusIntervalEndingAt 1800 jan2_1430Z)
              (boot 0 true (focusOf 30) None))
    = [mkSession jan2 14 30 "pomodoro" jan2_1430Z] /\
  UIController.calculatePeriodStats jan2_1500Z 7
    (run (focusIntervalEndingAt 1800 jan2_1430Z) (boot 0 true (focusOf 30) None))
  = UIController.mkPeriodStats 1 30
      [UIController.Daily.mkEntry 19718 "Wed" 0 0;
       UIController.Daily.mkEntry 19719 "Thu" 0 0;
       UIController.Daily.mkEntry 19720 "Fri" 0 0;
       UIController.Daily.mkEntry 19721 "Sat" 0 0;
       UIController.Daily.mkEntry 19722 "Sun" 0 0;
       UIController.Daily.mkEntry jan1 "Mon" 0 0;
       UIController.Daily.mkEntry jan2 "Tue" 30 1]
      (repeat (Some 0) 14 ++ [Some 30] ++ repeat (Some 0) 9).
Proof. by_evaluation. Qed.

(** C5 fails on the code east of UTC.  One hour east, after one 30-minute
    focus interval ending at 14:30 of 2 January, the week's statistics at
    15:00 count the session in the totals and in the slot of hour 14, but the
    seven daily entries run from 2023-12-26 to 2024-01-01: the session's
    day, 2024-01-02, has no entry, the entry labelled with today's weekday
    carries yesterday's date, and every entry is zero. *)
Theorem periodStats_misses_today_east_of_utc :
  sessions (run (focusIntervalEndingAt 1800 jan2_1330Z)
              (boot 60 true (focusOf 30) None))
    = [mkSession jan2 14 30 "pomodoro" jan2_1330Z] /\
  JsDate.localDate 60 jan2_1400Z = jan2 /\
  UIController.calculatePeriodStats jan2_1400Z 7
    (run (focusIntervalEndingAt 1800 jan2_1330Z) (boot 60 true (focusOf 30) None))
  = UIController.mkPeriodStats 1 30
      [UIController.Daily.mkEntry 19717 "Wed" 0 0;
       UIController.Daily.mkEntry 19718 "Thu" 0 0;
       UIController.Daily.mkEntry 19719 "Fri" 0 0;
       UIController.Daily.mkEntry 19720 "Sat" 0 0;
       UIController.Daily.mkEntry 19721 "Sun" 0 0;
       UIController.Daily.mkEntry 19722 "Mon" 0 0;
       UIController.Daily.mkEntry jan1 "Tue" 0 0]
      (repeat (Some 0) 14 ++ [Some 30] ++ repeat (Some 0) 9).
Proof. by_evaluation. Qed.

(* ================================================================= *)
(** ** Further properties: what every event preserves *)

Section Preserved.

Variable P : World -> Prop.

Hypothesis P_pause : forall w, P w -> P (TimerController.pause w).
Hypothesis P_start : forall w, P w -> P (TimerController.start w).
Hypothesis P_setMode : forall m w, P w -> P (TimerController.setMode m w).
Hypothesis P_reset : forall w, P w -> P (TimerController.reset w).
Hypothesis P_complete :
  forall now skipped w, P w -> P (TimerController.complete now skipped w).
Hypothesis P_second :
  forall w, P w -> P (set_timeRemaining (timeRemaining w - 1) w).
Hypothesis P_settings :
  forall s w, P w -> P (StorageManager.saveSettings s (set_settings s w)).
Hypothesis P_defaults :
  forall w, P w -> P (UIController.resetSettingsToDefaults w).
Hypothesis P_timeouts : forall l w, P w -> P (set_timeouts l w).

Lemma handle_preserves (e : Event) (w : World) : P w -> P (handle e w).
Proof.
  intros H. destruct e; simpl.
  - unfold TimerController.toggle. destruct (isRunning w); auto.
  - auto.
  - unfold TimerController.skip. auto.
  - auto.
  - unfold UIController.saveSettings. cbv zeta. auto.
  - auto.
  - destruct (Browser.active h w); [|exact H].
    unfold TimerController.tick. cbv zeta.
    destruct (_ <=? 0); auto.
  - destruct (timeouts w); auto.
Qed.

Lemma run_preserves (es : list Event) : forall w, P w -> P (run es w).
Proof.
  induction es as [|e es IH]; intros w H; [exact H|].
  simpl. apply IH, handle_preserves, H.
Qed.

End Preserved.

(* ================================================================= *)
(** ** Further properties: loading the page *)


(* ================================================================= *)
(** ** Further properties: what a completion records *)

(** What [complete] leaves alone when it credits nothing. *)
Lemma complete_keeps_sessions (now : Z) (skipped : bool) (w : World) :
  currentMode w <> pomodoro \/ skipped = true ->
  completedPomodoros (TimerController.complete now skipped w) = completedPomodoros w /\
  sessions (TimerController.complete now skipped w) = sessions w /\
  item_sessions (TimerController.complete now skipped w) = item_sessions w /\
  item_settings (TimerController.complete now skipped w) = item_settings w /\
  storageAvailable (TimerController.complete now skipped w) = storageAvailable w.
Proof.
  intros Hno. open_world w. simpl in Hno.
  destruct Hno as [Hm| ->].
  - destruct mode; [congruence| |];
      destruct running, ticker, sound, skipped; eval_world; auto.
  - destruct running, ticker, sound, mode; eval_world; auto.
Qed.

(** X2: a completion that was skipped, or that ends a break, credits
    nothing: the counter, the sessions in memory and both keys of the store
    are as before.  [skip], whatever the mode, is such a completion. *)
Theorem completion_without_credit (now : Z) (skipped : bool) (w : World) :
  (currentMode w <> pomodoro \/ skipped = true ->
   completedPomodoros (TimerController.complete now skipped w) = completedPomodoros w /\
   sessions (TimerController.complete now skipped w) = sessions w /\
   item_sessions (TimerController.complete now skipped w) = item_sessions w /\
   item_settings (TimerController.complete now skipped w) = item_settings w) /\
  completedPomodoros (TimerController.skip now w) = completedPomodoros w /\
  sessions (TimerController.skip now w) = sessions w /\
  item_sessions (TimerController.skip now w) = item_sessions w /\
  completions (TimerController.skip now w) = completions w ++ [true].
Proof.
  split.
  - intros Hno.
    destruct (complete_keeps_sessions now skipped w Hno) as (Hc & Hs & Hi & Hst & _).
    auto.
  - open_world w. destruct running, ticker, sound, mode; eval_world; auto.
Qed.

(** A long break that has run out, and a focus interval that is skipped. *)
Lemma completion_without_credit_witness :
  sessions (TimerController.complete jan2_1100Z false
              (TimerController.setMode longBreak freshPage))
  = sessions (TimerController.setMode longBreak freshPage) /\
  completedPomodoros (TimerController.complete jan2_1100Z true freshPage) = 0.
Proof.
  destruct (completion_without_credit jan2_1100Z false
              (TimerController.setMode longBreak freshPage)) as [Hbreak _].
  destruct (completion_without_credit jan2_1100Z true freshPage) as [Hskip _].
  split.
  - apply Hbreak. left. vm_compute. discriminate.
  - apply Hskip. right. reflexivity.
Defined.

Lemma kept_filter (now : Z) (l : list Session) :
  filter (fun s => StorageManager.cutoff now <=? JsDate.parse (date s)) l =
  filter (fun s => negb (JsDate.parse (date s) <? now - 90 * JsDate.MS_PER_DAY)) l.
Proof.
  apply filter_ext. intros s.
  unfold StorageManager.cutoff, JsDate.addDays.
  destruct (Z.leb_spec (now + -90 * JsDate.MS_PER_DAY) (JsDate.parse (date s)));
    destruct (Z.ltb_spec (JsDate.parse (date s)) (now - 90 * JsDate.MS_PER_DAY));
    simpl; lia.
Qed.

Lemma newSession_fresh (now : Z) (w : World) :
  (StorageManager.cutoff now <=? JsDate.parse (date (newSession now w))) = true.
Proof.
  unfold StorageManager.cutoff, JsDate.addDays, JsDate.parse, newSession,
    JsDate.toISODate, JsDate.MS_PER_DAY.
  simpl. apply Z.leb_le. Z.div_mod_to_equations. lia.
Qed.

(** What a focus completion that is not skipped leaves in memory, for
    either state of the store. *)
Lemma focus_completion_sessions (now : Z) (w : World) :
  currentMode w = pomodoro ->
  sessions (TimerController.complete now false w) =
    filter (fun s => StorageManager.cutoff now <=? JsDate.parse (date s))
      (StorageManager.loadSessions w) ++ [newSession now w] /\
  item_sessions (TimerController.complete now false w) =
    (if storageAvailable w
     then Some (sessions (TimerController.complete now false w))
     else item_sessions w) /\
  completedPomodoros (TimerController.complete now false w) =
    completedPomodoros w + 1 /\
  storageAvailable (TimerController.complete now false w) = storageAvailable w.
Proof.
  intros Hm. pose proof (newSession_fresh now w) as Hfresh.
  open_world w. simpl in Hm. subst. unfold newSession in *. simpl in Hfresh.
  destruct running, ticker, sound, avail; eval_world;
    rewrite filter_app; simpl; cbv [date]; rewrite Hfresh; auto.
Qed.

(** X3: a focus interval that completes without being skipped adds one to
    the counter and, the store being usable, leaves in the store and in
    memory the same list: the stored sessions that are not older than 90
    days, in their order, followed by the new session, which carries the
    focus time of the settings in force and the instant of completion. *)
Theorem focus_completion_records (now : Z) (w : World) :
  currentMode w = pomodoro ->
  storageAvailable w = true ->
  completedPomodoros (TimerController.complete now false w) =
    completedPomodoros w + 1 /\
  item_sessions (TimerController.complete now false w) =
    Some (keptAt now w ++ [newSession now w]) /\
  sessions (TimerController.complete now false w) =
    keptAt now w ++ [newSession now w] /\
  duration (newSession now w) = pomodoroMinutes (settings w) /\
  timestamp (newSession now w) = now.
Proof.
  intros Hm Ha.
  destruct (focus_completion_sessions now w Hm) as (Hs & Hi & Hc & _).
  rewrite Ha in Hi. rewrite Hi, Hs. unfold keptAt. rewrite kept_filter.
  repeat split. exact Hc.
Qed.

(** The default focus interval running out on a fresh page. *)
Lemma focus_completion_records_witness :
  sessions (TimerController.complete jan1_0900Z false freshPage) =
    [mkSession jan1 9 25 "pomodoro" jan1_0900Z] /\
  completedPomodoros (TimerController.complete jan1_0900Z false freshPage) = 1.
Proof.
  destruct (focus_completion_records jan1_0900Z freshPage eq_refl eq_refl)
    as (Hc & _ & Hs & _).
  split; [rewrite Hs; vm_compute; reflexivity | exact Hc].
Defined.

(** X4: when the store cannot be used, a completed focus interval leaves
    in memory the new session alone, whatever was there before, and the
    store as it was. *)
Theorem completion_without_store (now : Z) (w : World) :
  currentMode w = pomodoro ->
  storageAvailable w = false ->
  sessions (TimerController.complete now false w) = [newSession now w] /\
  item_sessions (TimerController.complete now false w) = item_sessions w /\
  completedPomodoros (TimerController.complete now false w) =
    completedPomodoros w + 1.
Proof.
  intros Hm Ha.
  destruct (focus_completion_sessions now w Hm) as (Hs & Hi & Hc & _).
  rewrite Ha in Hi. rewrite Hs.
  unfold StorageManager.loadSessions, StorageManager.load. rewrite Ha.
  auto.
Qed.

(** Two focus intervals completed in a row on a page without a store:
    after the second, one session is in memory. *)
Lemma completion_without_store_witness :
  sessions
    (TimerController.complete jan2_0900Z false
       (TimerController.complete jan1_0900Z false (boot 0 false None None)))
  = [mkSession jan2 9 25 "pomodoro" jan2_0900Z].
Proof.
  destruct (completion_without_store jan2_0900Z
              (TimerController.complete jan1_0900Z false (boot 0 false None None))
              eq_refl eq_refl) as (Hs & _).
  rewrite Hs. vm_compute. reflexivity.
Defined.

(* ================================================================= *)
(** ** Further properties: invariants of the running page *)

Ltac world_cases w :=
  open_world w; simpl in *;
  repeat match goal with
         | H : _ /\ _ |- _ => destruct H
         end; subst;
  try match goal with b : bool |- _ => destruct b end.

Lemma mirrored_complete (now : Z) (skipped : bool) (w : World) :
  mirrored w -> mirrored (TimerController.complete now skipped w).
Proof.
  unfold mirrored. intros [Ha Hs].
  destruct (Mode_eqb (currentMode w) pomodoro && negb skipped) eqn:Hcredit.
  - apply andb_true_iff in Hcredit. destruct Hcredit as [Hm Hsk].
    destruct skipped; [discriminate|].
    assert (Hm' : currentMode w = pomodoro)
      by (destruct (currentMode w); [reflexivity|discriminate|discriminate]).
    destruct (focus_completion_sessions now w Hm') as (_ & Hi & _ & Ha').
    rewrite Ha', Hi, Ha. auto.
  - assert (Hno : currentMode w <> pomodoro \/ skipped = true).
    { destruct (currentMode w), skipped; simpl in Hcredit;
        try discriminate; auto; left; discriminate. }
    destruct (complete_keeps_sessions now skipped w Hno) as (_ & Hs' & Hi' & _ & Ha').
    rewrite Hs', Hi', Ha'. split; assumption.
Qed.

(** X5: as long as the store can be used, the sessions in memory are the
    sessions in the store, in every state the page can reach. *)
Theorem sessions_mirror_store (tz : Z) (saved : option StoredSettings)
    (history : option (list Session)) (es : list Event) :
  sessions (run es (boot tz true saved history)) =
  StorageManager.loadSessions (run es (boot tz true saved history)).
Proof.
  assert (H : mirrored (run es (boot tz true saved history))).
  { apply run_preserves.
    - intros w [Ha Hs]. open_world w. simpl in *. subst.
      destruct running, ticker; split; reflexivity.
    - intros w [Ha Hs]. open_world w. simpl in *. subst.
      destruct running; split; reflexivity.
    - intros m w [Ha Hs]. open_world w. simpl in *. subst.
      destruct ticker; split; reflexivity.
    - intros w [Ha Hs]. open_world w. simpl in *. subst.
      destruct running, ticker; split; reflexivity.
    - intros now skipped w. apply mirrored_complete.
    - intros w [Ha Hs]. open_world w. simpl in *. subst. split; reflexivity.
    - intros s w [Ha Hs]. open_world w. simpl in *. subst. split; reflexivity.
    - intros w [Ha Hs]. open_world w. simpl in *. subst. split; reflexivity.
    - intros l w [Ha Hs]. open_world w. simpl in *. subst. split; reflexivity.
    - split; [reflexivity|]. destruct saved as [[? ? ? ? ? ?]|], history; reflexivity. }
  destruct H as [Ha Hs].
  unfold StorageManager.loadSessions, StorageManager.load.
  rewrite Ha. exact Hs.
Qed.

Lemma complete_counter (now : Z) (skipped : bool) (w : World) :
  completedPomodoros w <=
  completedPomodoros (TimerController.complete now skipped w) <=
  completedPomodoros w + 1.
Proof.
  open_world w. destruct running, ticker, sound, mode, skipped, avail;
    eval_world; lia.
Qed.

(** X6: no event takes the counter of completed focus intervals down:
    from any state, after any clicks, ticks and elapsed delays (a change of
    settings among them) it is at least what it was. *)
Theorem counter_never_decreases (es : list Event) (w : World) :
  completedPomodoros w <= completedPomodoros (run es w).
Proof.
  apply (run_preserves (fun x => completedPomodoros w <= completedPomodoros x));
    try lia.
  - intros x H. open_world x. destruct running, ticker; exact H.
  - intros x H. open_world x. destruct running; exact H.
  - intros m x H. open_world x. destruct ticker; exact H.
  - intros x H. open_world x. destruct running, ticker; exact H.
  - intros now skipped x H. pose proof (complete_counter now skipped x). lia.
  - intros x H. exact H.
  - intros s x H. open_world x. destruct avail; exact H.
  - intros x H. exact H.
  - intros l x H. exact H.
Qed.



(* ================================================================= *)
(** ** Further properties: the timer's operations *)


(** X9: saving the settings gives up the countdown under way: the timer is
    left paused in the same mode with the full, newly validated time of
    that mode, which is between one minute and an hour and a half; the
    counter, the sessions and a pending change of mode stay. *)
Theorem saveSettings_restarts_timer (f : Form) (w : World) :
  currentMode (UIController.saveSettings f w) = currentMode w /\
  isRunning (UIController.saveSettings f w) = false /\
  timerInterval (UIController.saveSettings f w) = None /\
  timeRemaining (UIController.saveSettings f w) =
    TimerController.minutes (UIController.newSettings f) (currentMode w) * 60 /\
  totalTime (UIController.saveSettings f w) =
    timeRemaining (UIController.saveSettings f w) /\
  60 <= timeRemaining (UIController.saveSettings f w) <= 5400 /\
  completedPomodoros (UIController.saveSettings f w) = completedPomodoros w /\
  sessions (UIController.saveSettings f w) = sessions w /\
  timeouts (UIController.saveSettings f w) = timeouts w.
Proof.
  destruct (newSettings_durations f) as (Hp & Hs & Hl & _).
  assert (Hrange : forall mode,
             60 <= TimerController.minutes (UIController.newSettings f) mode * 60
             <= 5400).
  { intros [| |]; unfold TimerController.minutes; lia. }
  assert (Hall :
    currentMode (UIController.saveSettings f w) = currentMode w /\
    isRunning (UIController.saveSettings f w) = false /\
    timerInterval (UIController.saveSettings f w) = None /\
    timeRemaining (UIController.saveSettings f w) =
      TimerController.minutes (UIController.newSettings f) (currentMode w) * 60 /\
    totalTime (UIController.saveSettings f w) =
      TimerController.minutes (UIController.newSettings f) (currentMode w) * 60 /\
    completedPomodoros (UIController.saveSettings f w) = completedPomodoros w /\
    sessions (UIController.saveSettings f w) = sessions w /\
    timeouts (UIController.saveSettings f w) = timeouts w).
  { open_world w. destruct avail, ticker, mode; repeat split. }
  destruct Hall as (Hm & Hr & Hh & Ht & Htot & Hc & Hse & Hto).
  rewrite Htot, Ht.
  repeat split; auto; apply Hrange.
Qed.

(** The countdown stops where [pause] finds it. *)
Lemma pause_running (h : positive) (w : World) :
  isRunning w = true -> timerInterval w = Some h ->
  timeRemaining (TimerController.pause w) = timeRemaining w /\
  isRunning (TimerController.pause w) = false /\
  timerInterval (TimerController.pause w) = None /\
  Browser.active h (TimerController.pause w) = false /\
  completions (TimerController.pause w) = completions w /\
  currentMode (TimerController.pause w) = currentMode w.
Proof.
  open_world w. simpl. intros -> ->. eval_world.
  repeat split. apply not_active_after_clear.
Qed.

(** X10: pausing keeps the time left.  After [start] and [k] seconds,
    fewer than were left, [pause] leaves the timer stopped with exactly [k]
    seconds less, no completion made and no interval alive; firings of the
    cancelled interval that are still under way change nothing. *)
Theorem pause_keeps_remaining_time (w : World) (nows stale : list Z) :
  tickSourceLive w ->
  Z.of_nat (List.length nows) < timeRemaining w ->
  exists h,
    timerInterval (TimerController.start w) = Some h /\
    timeRemaining
      (TimerController.pause (ticks h nows (TimerController.start w))) =
      timeRemaining w - Z.of_nat (List.length nows) /\
    isRunning
      (TimerController.pause (ticks h nows (TimerController.start w))) = false /\
    Browser.active h
      (TimerController.pause (ticks h nows (TimerController.start w))) = false /\
    completions
      (TimerController.pause (ticks h nows (TimerController.start w))) =
      completions w /\
    ticks h stale
      (TimerController.pause (ticks h nows (TimerController.start w))) =
    TimerController.pause (ticks h nows (TimerController.start w)).
Proof.
  intros Hlive Hlen.
  destruct (start_live w Hlive) as (h & Hh & Hon & Hrun & Htr & Hco).
  exists h. split; [exact Hh|].
  rewrite ticks_countdown by (rewrite ?Htr; assumption).
  destruct (pause_running h
              (set_timeRemaining
                 (timeRemaining (TimerController.start w)
                  - Z.of_nat (List.length nows)) (TimerController.start w)))
    as (Ht & Hr & _ & Hoff & Hc & _); [exact Hrun | exact Hh |].
  rewrite Ht, Hr, Hoff, Hc, ticks_inactive by exact Hoff.
  simpl. rewrite Htr, Hco. repeat split.
Qed.

(** Ten minutes into the first focus interval of a fresh page. *)
Lemma pause_keeps_remaining_time_witness :
  exists h,
    timeRemaining
      (TimerController.pause
         (ticks h (map (fun i => 1000 * Z.of_nat i) (seq 1 600))
            (TimerController.start freshPage))) = 900.
Proof.
  destruct (pause_keeps_remaining_time freshPage
              (map (fun i => 1000 * Z.of_nat i) (seq 1 600)) [])
    as (h & _ & Ht & _).
  - intros Hrun. vm_compute in Hrun. discriminate.
  - vm_compute. reflexivity.
  - exists h. rewrite Ht. vm_compute. reflexivity.
Defined.

Lemma tabs_keep_pending (ms : list Mode) :
  forall w,
    timeouts (run (map ModeTabClick ms) w) = timeouts w /\
    settings (run (map ModeTabClick ms) w) = settings w.
Proof.
  induction ms as [|m ms IH]; intros w; [split; reflexivity|].
  simpl. destruct (IH (TimerController.setMode m w)) as [-> ->].
  open_world w. destruct ticker; split; reflexivity.
Qed.

(** X11: the change of mode that [complete] schedules is never called
    off.  Whatever tabs the user picks while it is pending, once the delay
    has elapsed the page is in the scheduled mode, paused, with the full
    time of that mode. *)
Theorem pending_switch_overrides_tabs (now : Z) (skipped : bool)
    (ms : list Mode) (w : World) :
  timeouts w = [] ->
  exists next,
    timeouts (TimerController.complete now skipped w) = [next] /\
    currentMode
      (run (map ModeTabClick ms ++ [DelayElapsed])
         (TimerController.complete now skipped w)) = next /\
    isRunning
      (run (map ModeTabClick ms ++ [DelayElapsed])
         (TimerController.complete now skipped w)) = false /\
    timeRemaining
      (run (map ModeTabClick ms ++ [DelayElapsed])
         (TimerController.complete now skipped w)) =
      TimerController.minutes (settings w) next * 60 /\
    timeouts
      (run (map ModeTabClick ms ++ [DelayElapsed])
         (TimerController.complete now skipped w)) = [].
Proof.
  intros Hq.
  destruct (complete_effect now skipped w) as (_ & _ & Hset & Hto).
  rewrite Hq in Hto. simpl app in Hto.
  match type of Hto with _ = [?n] => set (next := n) in *; clearbody next end.
  set (c := TimerController.complete now skipped w) in *.
  exists next. split; [exact Hto|].
  assert (Hrun : forall l w0,
             run (l ++ [DelayElapsed]) w0 = handle DelayElapsed (run l w0))
    by (intros; unfold run; rewrite fold_left_app; reflexivity).
  rewrite Hrun.
  destruct (tabs_keep_pending ms c) as [Hto' Hset'].
  set (w1 := run (map ModeTabClick ms) c) in *.
  rewrite <- Hset, <- Hset'.
  unfold handle. rewrite Hto', Hto.
  clearbody w1. clear. open_world w1. destruct ticker, next; repeat split.
Qed.

(** A focus interval is skipped on a fresh page, and the user picks the
    focus tab before the delay has elapsed: the page ends in the long
    break all the same. *)
Lemma pending_switch_overrides_tabs_witness :
  currentMode
    (run (map ModeTabClick [pomodoro] ++ [DelayElapsed])
       (TimerController.complete 0 true freshPage)) = longBreak.
Proof.
  destruct (pending_switch_overrides_tabs 0 true [pomodoro] freshPage eq_refl)
    as (next & Hto & Hm & _).
  rewrite Hm. vm_compute in Hto. injection Hto as <-. reflexivity.
Defined.

(* ================================================================= *)
(** ** Further properties: statistics *)

Lemma sumZ_app (l1 l2 : list Z) : sumZ (l1 ++ l2) = sumZ l1 + sumZ l2.
Proof. induction l1 as [|x l1 IH]; simpl; lia. Qed.

Lemma sumZ_map_add {A : Type} (f g : A -> Z) (l : list A) :
  sumZ (map (fun i => f i + g i) l) = sumZ (map f l) + sumZ (map g l).
Proof. induction l as [|x l IH]; simpl; lia. Qed.

Lemma sumDuration_map (l : list Session) :
  UIController.sumDuration l = sumZ (map duration l).
Proof.
  induction l as [|s l IH]; [reflexivity|].
  unfold UIController.sumDuration in *. simpl.
  rewrite sumDuration_from. unfold UIController.sumDuration. rewrite IH. lia.
Qed.

Lemma length_map_one (l : list Session) :
  Z.of_nat (List.length l) = sumZ (map (fun _ => 1) l).
Proof.
  induction l as [|s l IH]; [reflexivity|].
  cbn [List.length map sumZ fold_right]. fold (sumZ (map (fun _ : Session => 1) l)).
  lia.
Qed.

(** One value counted in the one class it belongs to. *)
Lemma indicator_sum (k a d : Z) (n : nat) :
  sumZ (map (fun i => if k =? a + Z.of_nat i then d else 0) (seq 0 n)) =
  if (a <=? k) && (k <? a + Z.of_nat n) then d else 0.
Proof.
  induction n as [|n IH].
  - simpl. destruct (Z.leb_spec a k), (Z.ltb_spec k (a + 0)); simpl; lia.
  - rewrite seq_S, map_app, sumZ_app, IH. cbn [map sumZ fold_right Nat.add].
    destruct (Z.eqb_spec k (a + Z.of_nat n)), (Z.leb_spec a k),
      (Z.ltb_spec k (a + Z.of_nat n)), (Z.ltb_spec k (a + Z.of_nat (S n)));
      simpl; lia.
Qed.

(** Sessions sorted into [n] consecutive classes by a key, class by class,
    weigh together what they weigh in one list. *)
Lemma classes_add_up (key weight : Session -> Z) (a : Z) (n : nat)
    (l : list Session) :
  (forall s, In s l -> a <= key s < a + Z.of_nat n) ->
  sumZ (map (fun i =>
               sumZ (map weight (filter (fun s => key s =? a + Z.of_nat i) l)))
          (seq 0 n))
  = sumZ (map weight l).
Proof.
  induction l as [|x l IH]; intros Hk.
  - simpl. induction (seq 0 n) as [|i r IHr]; simpl; lia.
  - transitivity
      (sumZ (map (fun i => (if key x =? a + Z.of_nat i then weight x else 0)
                           + sumZ (map weight
                               (filter (fun s => key s =? a + Z.of_nat i) l)))
               (seq 0 n))).
    + f_equal. apply map_ext. intros i. simpl.
      destruct (key x =? a + Z.of_nat i); simpl; lia.
    + rewrite sumZ_map_add, indicator_sum, IH
        by (intros s Hs; apply Hk; right; exact Hs).
      pose proof (Hk x (or_introl eq_refl)) as Hx.
      destruct (Z.leb_spec a (key x)), (Z.ltb_spec (key x) (a + Z.of_nat n));
        simpl; lia.
Qed.

Lemma list_eq_nth {A : Type} (l1 l2 : list A) :
  List.length l1 = List.length l2 ->
  (forall i, (i < List.length l1)%nat -> nth_error l1 i = nth_error l2 i) ->
  l1 = l2.
Proof.
  revert l2. induction l1 as [|x l1 IH]; intros [|y l2] Hlen Hnth;
    simpl in Hlen; try discriminate; [reflexivity|].
  f_equal.
  - specialize (Hnth 0%nat). simpl in Hnth. injection Hnth; [auto|lia].
  - apply IH; [lia|]. intros i Hi. apply (Hnth (S i)). simpl. lia.
Qed.

(** X12: in any time zone, as long as the stored hours are hours of the
    day, the hourly series is 24 numbers that add up to the total minutes
    of the period. *)
Theorem hourly_slots_add_up (now days : Z) (w : World) :
  (forall s, In s (sessions w) -> hourOfDay s) ->
  exists slots,
    UIController.hourlyData (UIController.calculatePeriodStats now days w)
      = map Some slots /\
    List.length slots = 24%nat /\
    sumZ slots =
      UIController.totalMinutes (UIController.calculatePeriodStats now days w).
Proof.
  intros Hh.
  destruct (periodStats_totals now days w) as (_ & Htot & Hslot).
  specialize (Hslot Hh).
  set (P := filter (inPeriod (tzOffset w) now days) (sessions w)) in *.
  exists (map (fun h => sumZ (map duration
                  (filter (fun s => hour s =? 0 + Z.of_nat h) P)))
            (seq 0 24)).
  split; [|split].
  - apply list_eq_nth.
    + rewrite !length_map, length_seq.
      unfold UIController.calculatePeriodStats. cbv zeta.
      cbn [UIController.hourlyData].
      apply hourly_length; [|reflexivity].
      intros s Hs. apply filter_In in Hs. apply Hh, Hs.
    + intros i Hi.
      assert (Hi24 : (i < 24)%nat).
      { revert Hi. unfold UIController.calculatePeriodStats. cbv zeta.
        cbn [UIController.hourlyData].
        rewrite hourly_length; [auto| |reflexivity].
        intros s Hs. apply filter_In in Hs. apply Hh, Hs. }
      rewrite (Hslot i Hi24), map_map, nth_error_map, nth_error_seq.
      destruct (Nat.ltb_spec i 24) as [_|]; [|lia].
      cbn [option_map Nat.add]. unfold P. rewrite filter_filter.
      rewrite sumDuration_map. reflexivity.
  - rewrite length_map, length_seq. reflexivity.
  - rewrite Htot, sumDuration_map.
    apply (classes_add_up hour duration 0 24 P).
    intros s Hs. unfold P in Hs. apply filter_In in Hs.
    apply (Hh s), Hs.
Qed.

Lemma hours_checked (l : list Session) :
  forallb (fun s => (0 <=? hour s) && (hour s <? 24)) l = true ->
  forall s, In s l -> hourOfDay s.
Proof.
  intros H s Hs. rewrite forallb_forall in H. specialize (H s Hs).
  apply andb_true_iff in H. destruct H as [H1 H2].
  apply Z.leb_le in H1. apply Z.ltb_lt in H2. split; assumption.
Qed.

(** The store of a page one hour east of UTC after two mornings of
    focus. *)
Lemma hourly_slots_add_up_witness :
  exists slots,
    UIController.hourlyData
      (UIController.calculatePeriodStats jan2_1100Z 7
         (run twoMorningsOfFocus (boot 60 true (focusOf 1) None)))
      = map Some slots /\
    sumZ slots = 2.
Proof.
  destruct (hourly_slots_add_up jan2_1100Z 7
              (run twoMorningsOfFocus (boot 60 true (focusOf 1) None)))
    as (slots & Hs & _ & Hsum).
  - apply hours_checked. vm_compute. reflexivity.
  - exists slots. split; [exact Hs|]. rewrite Hsum. vm_compute. reflexivity.
Defined.

Lemma utc_window (now days : Z) (s : Session) :
  inPeriod 0 now days s = true ->
  JsDate.toISODate now - days + 1 <= date s
  < JsDate.toISODate now - days + 1 + Z.of_nat (Z.to_nat days).
Proof.
  unfold inPeriod, JsDate.endOfDay.
  unfold JsDate.addDays, JsDate.startOfDay,
    JsDate.parse, JsDate.localTime, JsDate.toISODate, JsDate.MS_PER_DAY,
    JsDate.MS_PER_MINUTE.
  intros H. apply andb_true_iff in H. destruct H as [H _].
  apply andb_true_iff in H. destruct H as [H1 H2].
  apply Z.leb_le in H1, H2. Z.div_mod_to_equations. lia.
Qed.

(** X13: on a page whose clock is on UTC the daily entries account for
    every session of the period: their minutes add up to the total minutes
    and their counts to the total count. *)
Theorem daily_entries_add_up_at_utc (now days : Z) (w : World) :
  tzOffset w = 0 ->
  sumZ (map UIController.Daily.minutes
          (UIController.dailyData (UIController.calculatePeriodStats now days w)))
    = UIController.totalMinutes (UIController.calculatePeriodStats now days w) /\
  sumZ (map UIController.Daily.pomodoros
          (UIController.dailyData (UIController.calculatePeriodStats now days w)))
    = UIController.totalPomodoros (UIController.calculatePeriodStats now days w).
Proof.
  intros Htz.
  destruct (periodStats_totals now days w) as (Hcount & Htot & _).
  rewrite Htot, Hcount. clear Htot Hcount.
  unfold UIController.calculatePeriodStats. cbv zeta.
  cbn [UIController.dailyData]. rewrite startDate_shift.
  fold (inPeriod (tzOffset w) now days). rewrite Htz.
  set (P := filter (inPeriod 0 now days) (sessions w)).
  assert (Hdate : forall i : nat,
             JsDate.toISODate
               (JsDate.addDays
                  (JsDate.addDays (JsDate.startOfDay 0 now) (- days + 1))
                  (Z.of_nat i))
             = JsDate.toISODate now - days + 1 + Z.of_nat i).
  { intros i. rewrite !toISODate_addDays, startOfDay_day_west by lia.
    unfold JsDate.localDate, JsDate.localTime, JsDate.toISODate,
      JsDate.MS_PER_DAY, JsDate.MS_PER_MINUTE.
    Z.div_mod_to_equations. lia. }
  assert (Hwin : forall s, In s P ->
             JsDate.toISODate now - days + 1 <= date s
             < JsDate.toISODate now - days + 1 + Z.of_nat (Z.to_nat days)).
  { intros s Hs. unfold P in Hs. apply filter_In in Hs.
    apply utc_window, Hs. }
  rewrite !map_map. cbn [UIController.Daily.minutes UIController.Daily.pomodoros].
  split.
  - rewrite sumDuration_map.
    rewrite <- (classes_add_up date duration _ _ P Hwin).
    f_equal. apply map_ext. intros i.
    rewrite Hdate, sumDuration_map. reflexivity.
  - rewrite length_map_one.
    rewrite <- (classes_add_up date (fun _ => 1) _ _ P Hwin).
    f_equal. apply map_ext. intros i.
    rewrite Hdate, length_map_one. reflexivity.
Qed.

(** The week of the page on UTC after one half hour of focus. *)
Lemma daily_entries_add_up_witness :
  sumZ (map UIController.Daily.minutes
          (UIController.dailyData
             (UIController.calculatePeriodStats jan2_1500Z 7
                (run (focusIntervalEndingAt 1800 jan2_1430Z)
                   (boot 0 true (focusOf 30) None))))) = 30.
Proof.
  destruct (daily_entries_add_up_at_utc jan2_1500Z 7
              (run (focusIntervalEndingAt 1800 jan2_1430Z)
                 (boot 0 true (focusOf 30) None))) as [Hm _].
  - vm_compute. reflexivity.
  - rewrite Hm. vm_compute. reflexivity.
Defined.

Lemma localDate_addDays (tz t n : Z) :
  JsDate.localDate tz (JsDate.addDays t n) = JsDate.localDate tz t + n.
Proof.
  unfold JsDate.localDate, JsDate.localTime, JsDate.addDays,
    JsDate.MS_PER_DAY, JsDate.MS_PER_MINUTE.
  Z.div_mod_to_equations. lia.
Qed.

Lemma localDate_startOfDay (tz t : Z) :
  JsDate.localDate tz (JsDate.startOfDay tz t) = JsDate.localDate tz t.
Proof.
  unfold JsDate.localDate, JsDate.startOfDay, JsDate.localTime,
    JsDate.MS_PER_DAY, JsDate.MS_PER_MINUTE.
  Z.div_mod_to_equations. lia.
Qed.

(** X14: in any time zone the labels of the daily entries name the local
    days of the period in order, the last one today: entry [i] of [days]
    is labelled for the local day [days - 1 - i] days before today. *)
Theorem daily_labels_name_local_days (now days : Z) (w : World) (i : nat) :
  (i < Z.to_nat days)%nat ->
  option_map UIController.Daily.label
    (nth_error
       (UIController.dailyData (UIController.calculatePeriodStats now days w)) i)
  = Some (labelOfLocalDay
            (JsDate.localDate (tzOffset w) now - (days - 1 - Z.of_nat i)) days).
Proof.
  intros Hi.
  unfold UIController.calculatePeriodStats. cbv zeta.
  cbn [UIController.dailyData].
  rewrite nth_error_map, nth_error_seq.
  destruct (Nat.ltb_spec i (Z.to_nat days)) as [_|]; [|lia].
  cbn [option_map UIController.Daily.label Nat.add]. f_equal.
  rewrite startDate_shift.
  unfold UIController.formatDateLabel, labelOfLocalDay, JsDate.weekdayShort,
    JsDate.monthDay.
  rewrite !localDate_addDays, localDate_startOfDay.
  replace (JsDate.localDate (tzOffset w) now + (- days + 1) + Z.of_nat i)
    with (JsDate.localDate (tzOffset w) now - (days - 1 - Z.of_nat i)) by lia.
  reflexivity.
Qed.

(** The last label of the week, one hour east of UTC on Tuesday 2 January
    2024. *)
Lemma daily_labels_witness :
  option_map UIController.Daily.label
    (nth_error
       (UIController.dailyData
          (UIController.calculatePeriodStats jan2_1100Z 7 pageEastOfUTC)) 6)
  = Some "Tue"%string.
Proof.
  rewrite (daily_labels_name_local_days jan2_1100Z 7 pageEastOfUTC 6).
  - vm_compute. reflexivity.
  - vm_compute. reflexivity.
Defined.

Lemma filter_implied {A : Type} (p q : A -> bool) (l : list A) :
  (forall x, p x = true -> q x = true) ->
  filter p (filter q l) = filter p l.
Proof.
  intros Hpq. induction l as [|x l IH]; simpl; [reflexivity|].
  destruct (q x) eqn:Hq; simpl.
  - destruct (p x); rewrite IH; reflexivity.
  - destruct (p x) eqn:Hp; [|exact IH].
    apply Hpq in Hp. congruence.
Qed.

Lemma today_is_kept (now : Z) (s : Session) :
  isToday now s = true ->
  (StorageManager.cutoff now <=? JsDate.parse (date s)) = true.
Proof.
  unfold isToday. intros H. apply andb_true_iff in H. destruct H as [H _].
  apply Z.eqb_eq in H. rewrite H.
  unfold StorageManager.cutoff, JsDate.addDays, JsDate.parse,
    JsDate.toISODate, JsDate.MS_PER_DAY.
  apply Z.leb_le. Z.div_mod_to_equations. lia.
Qed.

(** X15: right after a focus interval has completed, today's count on the
    page includes it, in any time zone: it is one more than the number of
    stored focus sessions that carry the date of the instant.  (The date
    written into the session and the date [updateTodayStats] looks for are
    both taken from [toISOString].) *)
Theorem today_counts_new_session (now : Z) (w : World) :
  currentMode w = pomodoro ->
  storageAvailable w = true ->
  UIController.todayPomodoros
    (UIController.updateTodayStats now (TimerController.complete now false w))
  = Z.of_nat (List.length (filter (isToday now) (StorageManager.loadSessions w)))
    + 1.
Proof.
  intros Hm Ha.
  destruct (focus_completion_sessions now w Hm) as (Hs & _).
  unfold UIController.updateTodayStats. cbv zeta.
  cbn [UIController.todayPomodoros]. fold (isToday now). rewrite Hs.
  rewrite filter_app, (filter_implied _ _ _ (today_is_kept now)).
  assert (Hnew : isToday now (newSession now w) = true).
  { unfold isToday, newSession, UIController.isPomodoro. simpl.
    rewrite Z.eqb_refl. reflexivity. }
  simpl. rewrite Hnew, length_app. simpl. lia.
Qed.

(** The second of the two mornings: the focus tab is picked again and the
    focus interval completes at 09:00 UTC of 2 January, one hour east. *)
Lemma today_counts_new_session_witness :
  UIController.todayPomodoros
    (UIController.updateTodayStats jan2_0900Z
       (TimerController.complete jan2_0900Z false
          (boot 60 true None (Some [mkSession jan1 10 25 "pomodoro" jan1_0900Z]))))
  = 1.
Proof.
  rewrite (today_counts_new_session jan2_0900Z
             (boot 60 true None (Some [mkSession jan1 10 25 "pomodoro" jan1_0900Z]))
             eq_refl eq_refl).
  vm_compute. reflexivity.
Defined.

Lemma timer_text_checked :
  forallb (fun t =>
             match readTimer (UIController.updateTimer (set_timeRemaining t freshPage)) with
             | Some r => (r =? t)
                         && (String.length
                               (UIController.updateTimer (set_timeRemaining t freshPage))
                             =? 5)%nat
             | None => false
             end)
    (map Z.of_nat (seq 0 (Z.to_nat 6000))) = true.
Proof. vm_compute. reflexivity. Qed.

(** X16: for a time left of less than 100 minutes the display reads
    [mm:ss], five characters, and reading it back as minutes and seconds
    gives the time left. *)
Theorem updateTimer_reads_back (w : World) :
  0 <= timeRemaining w < 6000 ->
  readTimer (UIController.updateTimer w) = Some (timeRemaining w) /\
  String.length (UIController.updateTimer w) = 5%nat.
Proof.
  intros Ht.
  assert (Hsame : UIController.updateTimer w =
                  UIController.updateTimer
                    (set_timeRemaining (timeRemaining w) freshPage))
    by reflexivity.
  rewrite Hsame.
  pose proof timer_text_checked as Hall. rewrite forallb_forall in Hall.
  specialize (Hall (timeRemaining w)).
  assert (Hin : In (timeRemaining w) (map Z.of_nat (seq 0 (Z.to_nat 6000)))).
  { apply in_map_iff. exists (Z.to_nat (timeRemaining w)).
    split; [lia|]. apply in_seq. lia. }
  specialize (Hall Hin).
  destruct (readTimer _) as [r|]; [|discriminate].
  apply andb_true_iff in Hall. destruct Hall as [Hr Hl].
  apply Z.eqb_eq in Hr. apply Nat.eqb_eq in Hl. subst r. auto.
Qed.

(** The fresh page shows 25:00. *)
Lemma updateTimer_reads_back_witness :
  UIController.updateTimer freshPage = "25:00"%string /\
  readTimer (UIController.updateTimer freshPage) = Some 1500.
Proof.
  split; [vm_compute; reflexivity|].
  apply (updateTimer_reads_back freshPage). vm_compute.
  split; [discriminate | reflexivity].
Defined.




Lemma hoursInRange_complete (now : Z) (skipped : bool) (w : World) :
  hoursInRange w -> hoursInRange (TimerController.complete now skipped w).
Proof.
  unfold hoursInRange. intros [Hs Hi].
  destruct (Mode_eqb (currentMode w) pomodoro && negb skipped) eqn:Hcredit.
  - apply andb_true_iff in Hcredit. destruct Hcredit as [Hm Hsk].
    destruct skipped; [discriminate|].
    assert (Hm' : currentMode w = pomodoro)
      by (destruct (currentMode w); [reflexivity|discriminate|discriminate]).
    destruct (focus_completion_sessions now w Hm') as (Hs' & Hi' & _).
    assert (Hnew : Forall hourOfDay (sessions (TimerController.complete now false w))).
    { rewrite Hs'. apply Forall_app. split.
      - apply Forall_forall. intros s Hin. apply filter_In in Hin.
        destruct Hin as [Hin _].
        unfold StorageManager.loadSessions, StorageManager.load in Hin.
        destruct (storageAvailable w); [|destruct Hin].
        rewrite Forall_forall in Hi. apply Hi, Hin.
      - constructor; [|constructor]. unfold hourOfDay, newSession. simpl.
        apply getHours_local. }
    split; [exact Hnew|]. rewrite Hi'.
    destruct (storageAvailable w); assumption.
  - assert (Hno : currentMode w <> pomodoro \/ skipped = true).
    { destruct (currentMode w), skipped; simpl in Hcredit;
        try discriminate; auto; left; discriminate. }
    destruct (complete_keeps_sessions now skipped w Hno) as (_ & -> & -> & _).
    split; assumption.
Qed.

(** X18: the sessions the page records carry an hour of the day.  Loaded
    with a store whose sessions do, the page keeps, in every state it can
    reach, every hour in memory and in the store within 0-23, and the hourly
    series of the statistics at 24 entries. *)
Theorem recorded_hours_in_range (tz : Z) (usable : bool)
    (saved : option StoredSettings) (history : option (list Session))
    (es : list Event) (now days : Z) :
  (forall l, history = Some l -> Forall hourOfDay l) ->
  Forall hourOfDay (sessions (run es (boot tz usable saved history))) /\
  Forall hourOfDay (StorageManager.loadSessions (run es (boot tz usable saved history))) /\
  List.length
    (UIController.hourlyData
       (UIController.calculatePeriodStats now days
          (run es (boot tz usable saved history)))) = 24%nat.
Proof.
  intros Hhist.
  assert (H : hoursInRange (run es (boot tz usable saved history))).
  { apply run_preserves.
    - intros w [Hs Hi]. open_world w. destruct running, ticker; split; assumption.
    - intros w [Hs Hi]. open_world w. destruct running; split; assumption.
    - intros m w [Hs Hi]. open_world w. destruct ticker; split; assumption.
    - intros w [Hs Hi]. open_world w. destruct running, ticker; split; assumption.
    - intros t skipped w. apply hoursInRange_complete.
    - intros w [Hs Hi]. split; assumption.
    - intros s w [Hs Hi]. open_world w. destruct avail; split; assumption.
    - intros w [Hs Hi]. split; assumption.
    - intros l w [Hs Hi]. split; assumption.
    - unfold hoursInRange.
      destruct usable, saved as [[? ? ? ? ? ?]|], history as [l|]; simpl;
        split; try constructor; apply (Hhist l eq_refl). }
  destruct H as [Hs Hi]. split; [exact Hs|]. split.
  - unfold StorageManager.loadSessions, StorageManager.load.
    destruct (storageAvailable _); [exact Hi | constructor].
  - unfold UIController.calculatePeriodStats. cbv zeta.
    cbn [UIController.hourlyData].
    apply hourly_length; [|reflexivity].
    intros s Hin. apply filter_In in Hin. destruct Hin as [Hin _].
    rewrite Forall_forall in Hs. apply Hs, Hin.
Qed.

(** A first visit, nothing stored, two mornings of focus. *)
Lemma recorded_hours_in_range_witness :
  Forall hourOfDay
    (sessions (run twoMorningsOfFocus (boot 60 true (focusOf 1) None))).
Proof.
  destruct (recorded_hours_in_range 60 true (focusOf 1) None
              twoMorningsOfFocus 0 7) as [H _].
  - intros l Hl. discriminate Hl.
  - exact H.
Defined.


(** Fifty minutes of focus, breaks of ten and twenty, a long break every
    third time, no sound, the volume at 80. *)
Lemma save_load_nonzero_volume_witness :
  StorageManager.loadSettings
    (UIController.saveSettings
       (UIController.populateSettingsForm (mkSettings 50 10 20 3 false 80))
       freshPage)
  = mkSettings 50 10 20 3 false 80.
Proof.
  apply (save_load_nonzero_volume (mkSettings 50 10 20 3 false 80) freshPage).
  - reflexivity.
  - unfold durationsInRange. simpl. lia.
  - simpl. lia.
Defined.

(* ================================================================= *)
(** ** Further properties: the charts *)

Lemma fold_max_bounds (l : list Z) :
  forall acc,
    acc <= fold_left Z.max l acc /\
    forall x, In x l -> x <= fold_left Z.max l acc.
Proof.
  induction l as [|y l IH]; intros acc; simpl.
  - split; [lia|]. intros x [].
  - destruct (IH (Z.max acc y)) as [Hacc Hin]. split; [lia|].
    intros x [<-|Hx]; [lia|]. apply Hin, Hx.
Qed.

(** X21: the vertical axis of the focus chart spans at least one hour and
    at least the minutes of every bar, so no bar is taller than the
    chart; and it spans no full hour more than the tallest bar, or the hour
    it starts from, needs. *)
Theorem focus_chart_scale_covers_bars (data : list UIController.Daily.Entry) :
  1 <= ChartRenderer.maxHours data /\
  (forall e, In e data ->
     UIController.Daily.minutes e <= ChartRenderer.maxHours data * 60) /\
  (ChartRenderer.maxHours data - 1) * 60 < ChartRenderer.maxMinutes data.
Proof.
  unfold ChartRenderer.maxHours.
  assert (Hmax : 60 <= ChartRenderer.maxMinutes data /\
                 forall e, In e data ->
                   UIController.Daily.minutes e <= ChartRenderer.maxMinutes data).
  { unfold ChartRenderer.maxMinutes.
    destruct (fold_max_bounds (map UIController.Daily.minutes data) 60)
      as [H60 Hin].
    split; [exact H60|]. intros e He. apply Hin, in_map, He. }
  destruct Hmax as [H60 Hin].
  set (m := ChartRenderer.maxMinutes data) in *.
  split; [|split].
  - Z.div_mod_to_equations. lia.
  - intros e He. specialize (Hin e He). Z.div_mod_to_equations. lia.
  - Z.div_mod_to_equations. lia.
Qed.

(** A week with one day of two and a half hours. *)
Lemma focus_chart_scale_witness :
  150 <= ChartRenderer.maxHours
           [UIController.Daily.mkEntry jan1 "Mon" 150 5;
            UIController.Daily.mkEntry jan2 "Tue" 0 0] * 60.
Proof.
  destruct (focus_chart_scale_covers_bars
              [UIController.Daily.mkEntry jan1 "Mon" 150 5;
               UIController.Daily.mkEntry jan2 "Tue" 0 0]) as (_ & Hbars & _).
  apply (Hbars (UIController.Daily.mkEntry jan1 "Mon" 150 5)).
  left. reflexivity.
Defined.

Lemma hex_char_range (c : ascii) (d : Z) :
  ChartRenderer.hexValue c = Some d -> 0 <= d <= 15.
Proof.
  unfold ChartRenderer.hexValue. cbv zeta.
  destruct (Z.leb_spec 48 (ChartRenderer.code c)),
    (Z.leb_spec (ChartRenderer.code c) 57),
    (Z.leb_spec 65 (ChartRenderer.code c)),
    (Z.leb_spec (ChartRenderer.code c) 70),
    (Z.leb_spec 97 (ChartRenderer.code c)),
    (Z.leb_spec (ChartRenderer.code c) 102);
    simpl; intros Hv; try discriminate; injection Hv as <-; lia.
Qed.

Lemma hexDigits_step (c : ascii) (d a : Z) (rest : string) :
  ChartRenderer.hexValue c = Some d ->
  ChartRenderer.hexDigits (String c rest) (Some a) =
  ChartRenderer.hexDigits rest (Some (16 * a + d)).
Proof. intros H. simpl. rewrite H. reflexivity. Qed.

(** Two hexadecimal digits at the head of the text are read as digits:
    neither is white space, a sign or the [x] of a prefix. *)
Lemma parseInt16_two_digits (c1 c2 : ascii) (d1 d2 : Z) (rest : string) :
  ChartRenderer.hexValue c1 = Some d1 ->
  ChartRenderer.hexValue c2 = Some d2 ->
  ChartRenderer.parseInt16 (String c1 (String c2 rest)) =
  option_map (Z.mul 1) (ChartRenderer.hexDigits rest (Some (16 * d1 + d2))).
Proof.
  intros H1 H2.
  destruct c1 as [[] [] [] [] [] [] [] []]; cbv in H1; try discriminate H1;
    injection H1 as <-;
    try (unfold ChartRenderer.parseInt16;
         cbn [ChartRenderer.trimStart ChartRenderer.isWhiteSpace];
         cbv [ChartRenderer.code]; simpl;
         rewrite H2; reflexivity).
  destruct c2 as [[] [] [] [] [] [] [] []]; cbv in H2; try discriminate H2;
    injection H2 as <-; reflexivity.
Qed.

Lemma bytes_of (d1 d2 d3 d4 d5 d6 : Z) :
  0 <= d1 <= 15 -> 0 <= d2 <= 15 -> 0 <= d3 <= 15 ->
  0 <= d4 <= 15 -> 0 <= d5 <= 15 -> 0 <= d6 <= 15 ->
  let num :=
    Some (1 * (16 * (16 * (16 * (16 * (16 * d1 + d2) + d3) + d4) + d5) + d6)) in
  Z.shiftr (ChartRenderer.toInt32 num) 16 = 16 * d1 + d2 /\
  Z.land (Z.shiftr (ChartRenderer.toInt32 num) 8) 255 = 16 * d3 + d4 /\
  Z.land (ChartRenderer.toInt32 num) 255 = 16 * d5 + d6.
Proof.
  intros H1 H2 H3 H4 H5 H6 num. unfold num, ChartRenderer.toInt32.
  change 255 with (Z.ones 8).
  rewrite !Z.land_ones, !Z.shiftr_div_pow2 by lia.
  change (2 ^ 31) with 2147483648. change (2 ^ 32) with 4294967296.
  change (2 ^ 16) with 65536. change (2 ^ 8) with 256.
  repeat split; Z.div_mod_to_equations; lia.
Qed.

(** X19: a colour written as [#] and six hexadecimal digits, in either
    case, is read as its three bytes: [adjustColor] gives [rgb(r, g, b)]
    with each byte moved by [amount] and held within 0-255, and
    [adjustColorOpacity] gives [rgba(r, g, b, opacity)] with the bytes as
    they are. *)
Theorem hex_colour_bytes (c1 c2 c3 c4 c5 c6 : ascii)
    (d1 d2 d3 d4 d5 d6 amount : Z) (opacity : string) :
  ChartRenderer.hexValue c1 = Some d1 -> ChartRenderer.hexValue c2 = Some d2 ->
  ChartRenderer.hexValue c3 = Some d3 -> ChartRenderer.hexValue c4 = Some d4 ->
  ChartRenderer.hexValue c5 = Some d5 -> ChartRenderer.hexValue c6 = Some d6 ->
  ChartRenderer.adjustColor
    (String "#" (String c1 (String c2 (String c3 (String c4
       (String c5 (String c6 EmptyString))))))) amount
  = ("rgb(" ++ JsString.toString (Z.min 255 (Z.max 0 (16 * d1 + d2 + amount)))
     ++ ", " ++ JsString.toString (Z.min 255 (Z.max 0 (16 * d3 + d4 + amount)))
     ++ ", " ++ JsString.toString (Z.min 255 (Z.max 0 (16 * d5 + d6 + amount)))
     ++ ")")%string /\
  ChartRenderer.adjustColorOpacity
    (String "#" (String c1 (String c2 (String c3 (String c4
       (String c5 (String c6 EmptyString))))))) opacity
  = ("rgba(" ++ JsString.toString (16 * d1 + d2)
     ++ ", " ++ JsString.toString (16 * d3 + d4)
     ++ ", " ++ JsString.toString (16 * d5 + d6)
     ++ ", " ++ opacity ++ ")")%string /\
  0 <= 16 * d1 + d2 <= 255 /\ 0 <= 16 * d3 + d4 <= 255 /\
  0 <= 16 * d5 + d6 <= 255.
Proof.
  intros H1 H2 H3 H4 H5 H6.
  pose proof (hex_char_range _ _ H1). pose proof (hex_char_range _ _ H2).
  pose proof (hex_char_range _ _ H3). pose proof (hex_char_range _ _ H4).
  pose proof (hex_char_range _ _ H5). pose proof (hex_char_range _ _ H6).
  assert (Hc : ChartRenderer.components
                 (String "#" (String c1 (String c2 (String c3 (String c4
                    (String c5 (String c6 EmptyString)))))))
               = Some (Some (16 * d1 + d2), Some (16 * d3 + d4),
                       Some (16 * d5 + d6))).
  { change (ChartRenderer.components
              (String "#" (String c1 (String c2 (String c3 (String c4
                 (String c5 (String c6 EmptyString))))))))
      with (let num := ChartRenderer.parseInt16
                         (String c1 (String c2 (String c3 (String c4
                            (String c5 (String c6 EmptyString)))))) in
            Some (Some (Z.shiftr (ChartRenderer.toInt32 num) 16),
                  Some (Z.land (Z.shiftr (ChartRenderer.toInt32 num) 8) 255),
                  Some (Z.land (ChartRenderer.toInt32 num) 255))).
    rewrite (parseInt16_two_digits c1 c2 d1 d2 _ H1 H2).
    rewrite (hexDigits_step c3 d3 _ _ H3), (hexDigits_step c4 d4 _ _ H4),
      (hexDigits_step c5 d5 _ _ H5), (hexDigits_step c6 d6 _ _ H6).
    cbn [ChartRenderer.hexDigits option_map]. cbv zeta.
    destruct (bytes_of d1 d2 d3 d4 d5 d6) as (-> & -> & ->); auto. }
  unfold ChartRenderer.adjustColor, ChartRenderer.adjustColorOpacity.
  rewrite Hc. cbn [ChartRenderer.shade ChartRenderer.show
                   ChartRenderer.showRaw option_map].
  repeat split; lia.
Qed.

(** The colour the charts fall back on, darkened by 30. *)
Lemma hex_colour_bytes_witness :
  ChartRenderer.adjustColor "#FF6B6B" (-30) = "rgb(225, 77, 77)"%string.
Proof.
  destruct (hex_colour_bytes "F" "F" "6" "B" "6" "B" 15 15 6 11 6 11 (-30) ""
              eq_refl eq_refl eq_refl eq_refl eq_refl eq_refl) as (Hrgb & _).
  rewrite Hrgb. vm_compute. reflexivity.
Defined.

(** X20: whatever follows the [#], [adjustColor] answers with three numbers
    within 0-255 (text that is no number counts as 0); and a colour that
    starts with neither [#] nor [rgb] comes back unchanged from both
    functions. *)
Theorem adjustColor_in_range_or_unchanged (color : string) (amount : Z)
    (opacity : string) :
  (forall hex, color = String "#" hex ->
     exists r g b,
       0 <= r <= 255 /\ 0 <= g <= 255 /\ 0 <= b <= 255 /\
       ChartRenderer.adjustColor color amount
       = ("rgb(" ++ JsString.toString r ++ ", " ++ JsString.toString g
          ++ ", " ++ JsString.toString b ++ ")")%string) /\
  (prefix "#" color = false -> prefix "rgb" color = false ->
   ChartRenderer.adjustColor color amount = color /\
   ChartRenderer.adjustColorOpacity color opacity = color).
Proof.
  split.
  - intros hex ->.
    unfold ChartRenderer.adjustColor.
    change (ChartRenderer.components (String "#" hex))
      with (let num := ChartRenderer.parseInt16 hex in
            Some (Some (Z.shiftr (ChartRenderer.toInt32 num) 16),
                  Some (Z.land (Z.shiftr (ChartRenderer.toInt32 num) 8) 255),
                  Some (Z.land (ChartRenderer.toInt32 num) 255))).
    cbv zeta. cbn [ChartRenderer.shade ChartRenderer.show option_map].
    eexists _, _, _.
    split; [|split; [|split; [|reflexivity]]]; lia.
  - intros Hhash Hrgb.
    unfold ChartRenderer.adjustColor, ChartRenderer.adjustColorOpacity.
    assert (Hc : ChartRenderer.components color = None).
    { unfold ChartRenderer.components. rewrite Hrgb.
      destruct color as [|c rest]; [reflexivity|].
      destruct c as [[] [] [] [] [] [] [] []]; try reflexivity.
      simpl in Hhash. destruct rest; discriminate. }
    rewrite Hc. split; reflexivity.
Qed.

(** A colour name, and [#] followed by no number. *)
Lemma adjustColor_in_range_or_unchanged_witness :
  ChartRenderer.adjustColor "tomato" (-30) = "tomato"%string /\
  exists r g b,
    0 <= r <= 255 /\ 0 <= g <= 255 /\ 0 <= b <= 255 /\
    ChartRenderer.adjustColor "#zz" 40
    = ("rgb(" ++ JsString.toString r ++ ", " ++ JsString.toString g
       ++ ", " ++ JsString.toString b ++ ")")%string.
Proof.
  destruct (adjustColor_in_range_or_unchanged "tomato" (-30) "") as [_ Hsame].
  destruct (adjustColor_in_range_or_unchanged "#zz" 40 "") as [Hhex _].
  split.
  - apply Hsame; reflexivity.
  - apply (Hhex "zz"%string). reflexivity.
Defined.
